(** * PNCT container tracking: projection, fetch activity and retry wrapper

    A shallow embedding of [activities/pnct_activities.py] and
    [workflows/pnct_workflow.py], and of the request handlers above them:
    [scraper_api.scrape], [http_server.tool_query_container] and
    [ContainerAgent.call_mcp_tool].

    - Python objects decoded from the upstream JSON body are the inductive
      [value]; a [dict] is a [gmap string value].
    - Python strings are [string]; one character of the model stands for one
      character of the Python string, so [String.length] is [len].
    - The clock, the upstream terminal API and Python's [str()] on floats and
      containers are read from an environment [Env]; clock reads, HTTP
      requests, activity attempts and backoff timers are logged in [World].
    - Exceptions are the inductive [exn]; code that may raise lives in the
      monad [Act]. *)

From Stdlib Require Import ZArith QArith String Floats.SpecFloat.
From stdpp Require Import base gmap strings list fin_maps pretty.

#[local] Set Warnings "-register-all".
#[local] Open Scope Z_scope.

(** ** Python values *)

Inductive value : Type :=
| PyNone
| PyBool (b : bool)
| PyInt (n : Z)
| PyFloat (f : spec_float)
| PyStr (s : string)
| PyList (l : list value)
| PyDict (m : gmap string value).

(** [type(v).__name__] *)
Definition type_name (v : value) : string :=
  match v with
  | PyNone => "NoneType"
  | PyBool _ => "bool"
  | PyInt _ => "int"
  | PyFloat _ => "float"
  | PyStr _ => "str"
  | PyList _ => "list"
  | PyDict _ => "dict"
  end.

(** [bool(v)]: None, False, 0, 0.0, -0.0, "", [] and {} are falsy. *)
Definition truthy (v : value) : bool :=
  match v with
  | PyNone => false
  | PyBool b => b
  | PyInt n => negb (n =? 0)
  | PyFloat (S754_zero _) => false
  | PyFloat _ => true
  | PyStr EmptyString => false
  | PyStr _ => true
  | PyList [] => false
  | PyList _ => true
  | PyDict m => negb (Nat.eqb (size m) 0)
  end.

(** [f == n] for a float [f] and an int [n]: Python compares the exact
    mathematical values. *)
Definition float_eq_int (f : spec_float) (n : Z) : bool :=
  match f with
  | S754_zero _ => n =? 0
  | S754_finite s m e =>
      let sm := if s then Z.neg m else Z.pos m in
      if 0 <=? e then sm * 2 ^ e =? n else sm =? n * 2 ^ (- e)
  | S754_infinity _ | S754_nan => false
  end.

(** [v == n] for an int literal [n]. *)
Definition py_eq_int (v : value) (n : Z) : bool :=
  match v with
  | PyInt k => k =? n
  | PyBool b => (if b then 1 else 0) =? n
  | PyFloat f => float_eq_int f n
  | _ => false
  end.

(** [v == s] for a str literal [s]. *)
Definition py_eq_str (v : value) (s : string) : bool :=
  match v with
  | PyStr t => String.eqb t s
  | _ => false
  end.

(** [a or b] and [a and b] return one of their operands. *)
Definition py_or (a b : value) : value := if truthy a then a else b.
Definition py_and (a b : value) : value := if truthy a then b else a.

(** [d.get(k)] and [d.get(k, dflt)] on a dict. *)
Definition dict_get (d : gmap string value) (k : string) : value :=
  default PyNone (d !! k).
Definition dict_get_or (d : gmap string value) (k : string) (dflt : value) : value :=
  default dflt (d !! k).

(** A dict display [{k1: v1, ..., kn: vn}] with pairwise distinct keys. *)
Definition dict_of (items : list (string * value)) : value :=
  PyDict (list_to_map items).

(** ** Exceptions *)

Inductive exn : Type :=
| ValueError (msg : string)
| Exception (msg : string)
| AttributeError (msg : string)
| JSONDecodeError (msg : string)
| HTTPStatusError (status_code : Z) (text : string)
| RequestError (msg : string)
| ActivityError (cause : exn).

(** The class name of an exception, which the workflow engine records as the
    failure type. *)
Definition exn_type_name (e : exn) : string :=
  match e with
  | ValueError _ => "ValueError"
  | Exception _ => "Exception"
  | AttributeError _ => "AttributeError"
  | JSONDecodeError _ => "JSONDecodeError"
  | HTTPStatusError _ _ => "HTTPStatusError"
  | RequestError _ => "RequestError"
  | ActivityError _ => "ActivityError"
  end.

(** ** Environment, world and the [Act] monad *)

(** What [httpx.AsyncClient.get] produces: a transport-level failure (an
    [httpx.RequestError]: connection, DNS, timeout) or a response.  [json] is
    what [response.json()] returns, [None] when the body does not decode. *)
Inductive http_outcome : Type :=
| TransportFailure (msg : string)
| HttpResponse (status_code : Z) (text : string) (json : option value).

Record Env : Type := {
  (** [datetime.utcnow().isoformat()] at the k-th clock read *)
  utcnow_isoformat : nat → string;
  (** [int(time.time() * 1000)] at the k-th clock read *)
  time_ms : nat → Z;
  (** the upstream answer to the k-th request of this execution, for a URL *)
  upstream : nat → string → http_outcome;
  (** [str(v)] for the values whose rendering is not modelled here:
      floats, lists and dicts *)
  str_other : value → string;
}.

Record World : Type := {
  clock_reads : nat;
  requests : list string;      (* URLs of the HTTP GETs issued, oldest first *)
  attempts : nat;              (* activity attempts started by the engine *)
  timers : list Q;             (* backoff waits in seconds, oldest first *)
}.

Definition world0 : World :=
  {| clock_reads := 0; requests := []; attempts := 0; timers := [] |}.

Inductive outcome (A : Type) : Type :=
| Returns (a : A)
| Raises (e : exn).
Arguments Returns {A} a.
Arguments Raises {A} e.

Definition Act (A : Type) : Type := Env → World → outcome A * World.

Definition ret {A} (a : A) : Act A := λ _ w, (Returns a, w).
Definition raise {A} (e : exn) : Act A := λ _ w, (Raises e, w).
Definition bind {A B} (c : Act A) (k : A → Act B) : Act B :=
  λ env w,
    match c env w with
    | (Returns a, w') => k a env w'
    | (Raises e, w') => (Raises e, w')
    end.
Definition try_except {A} (c : Act A) (handler : exn → Act A) : Act A :=
  λ env w,
    match c env w with
    | (Returns a, w') => (Returns a, w')
    | (Raises e, w') => handler e env w'
    end.

Notation "x <~ c ;; k" := (bind c (λ x, k))
  (at level 100, c at next level, right associativity).

Definition tick (w : World) : World :=
  {| clock_reads := S (clock_reads w); requests := requests w;
     attempts := attempts w; timers := timers w |}.

(** [datetime.utcnow().isoformat() + "Z"] *)
Definition utcnow_z : Act string :=
  λ env w, (Returns (utcnow_isoformat env (clock_reads w) +:+ "Z"), tick w).

(** [int(time.time() * 1000)] *)
Definition time_millis : Act Z :=
  λ env w, (Returns (time_ms env (clock_reads w)), tick w).

(** [f"{v}"] *)
Definition py_str (env : Env) (v : value) : string :=
  match v with
  | PyStr s => s
  | PyNone => "None"
  | PyBool true => "True"
  | PyBool false => "False"
  | PyInt n => pretty n
  | _ => str_other env v
  end.

(** ** Projection engine: [_extract_data_by_intent] *)

(** [holds.append(label)] guarded by [if c:] *)
Definition append_if (c : bool) (label : string) (holds : list string) : list string :=
  if c then holds ++ [label] else holds.

Definition _has_holds (env : Env) (data : gmap string value) : bool * list string :=
  let holds := [] in
  let holds :=
    append_if (py_eq_str (dict_get data "CarrierReleaseStatus") "HOLD")
      "Carrier Hold" holds in
  let holds :=
    append_if (negb (py_eq_str (dict_get data "CustomReleaseStatus") "RELEASED"))
      "Customs Hold" holds in
  let holds :=
    append_if (negb (py_eq_str (dict_get data "UsdaStatus") "RELEASED"))
      "USDA Hold" holds in
  let holds :=
    append_if (truthy (dict_get data "YardReleaseStatus")
               && negb (py_eq_str (dict_get data "YardReleaseStatus") "RELEASED"))
      "Yard Hold" holds in
  let holds :=
    append_if (truthy (dict_get data "MiscHoldStatus"))
      ("Misc Hold: " +:+ py_str env (dict_get data "MiscHoldStatus")) holds in
  let holds :=
    append_if (truthy (dict_get data "IsTerminalHold"))
      "Terminal Hold" holds in
  (Nat.ltb 0 (length holds), holds).

(** The float literals of the placeholder coordinates, as binary64 values. *)
Definition lat_40_7032 : spec_float := S754_finite false 5728466136024587 (-47).
Definition lon_m74_1468 : spec_float := S754_finite true 5217617200792417 (-46).
(** [0.0] *)
Definition float_zero : spec_float := S754_zero false.

(** [container_data.get]: every value that is not a dict has no attribute
    [get].  The first statement of [_extract_data_by_intent] calls
    [_has_holds], whose first operation is such a lookup, so a non-dict
    argument raises before anything else happens. *)
Definition get_method (container_data : value) : Act (gmap string value) :=
  match container_data with
  | PyDict m => ret m
  | v => raise (AttributeError
                  ("'" +:+ type_name v +:+ "' object has no attribute 'get'"))
  end.

Definition coordinates : value :=
  dict_of [ ("lat", PyFloat lat_40_7032); ("lon", PyFloat lon_m74_1468) ].

Definition _extract_data_by_intent (container_data : value) (intent : string)
  : Act value :=
  data <~ get_method container_data ;;
  λ env,
  let '(has_holds, hold_types) := _has_holds env data in
  (if String.eqb intent "status" then
     now <~ utcnow_z ;;
     ret (dict_of
       [ ("status", dict_get_or data "State" (PyStr "Unknown"));
         ("container_state", dict_get_or data "ContainerState" (PyStr "Unknown"));
         ("location", dict_get_or data "Location" (PyStr "Unknown"));
         ("available",
            PyBool (py_eq_int (dict_get_or data "Available" (PyInt 0)) 2));
         ("availability_display_status",
            dict_get_or data "AvailabilityDisplayStatus" (PyStr "Unknown"));
         ("last_updated", PyStr now) ])
   else if String.eqb intent "location" then
     now <~ utcnow_z ;;
     let location_data : gmap string value := list_to_map
       [ ("location", dict_get_or data "Location" (PyStr "Unknown"));
         ("yard_name", dict_get data "YardName");
         ("block", dict_get data "Block");
         ("bay", dict_get data "Bay");
         ("position", dict_get data "Position");
         ("state", dict_get_or data "State" (PyStr "Unknown"));
         ("container_state", dict_get_or data "ContainerState" (PyStr "Unknown"));
         ("last_updated", PyStr now) ] in
     if truthy (py_and (dict_get data "Block") (dict_get data "Bay")) then
       ret (PyDict (<["coordinates" := coordinates]> location_data))
     else
       ret (PyDict location_data)
   else if String.eqb intent "availability" then
     let available := py_eq_int (dict_get_or data "Available" (PyInt 0)) 2 in
     now <~ utcnow_z ;;
     ret (dict_of
       [ ("available", PyBool available);
         ("availability_display_status",
            dict_get_or data "AvailabilityDisplayStatus" (PyStr "No"));
         ("available_for_pickup", PyBool (available && negb has_holds));
         ("order_of_accessibility", dict_get data "OrderOfAccessibility");
         ("last_updated", PyStr now) ])
   else if String.eqb intent "holds" then
     now <~ utcnow_z ;;
     ret (dict_of
       [ ("has_holds", PyBool has_holds);
         ("hold_types", PyList (PyStr <$> hold_types));
         ("carrier_release_status", dict_get data "CarrierReleaseStatus");
         ("custom_release_status", dict_get data "CustomReleaseStatus");
         ("usda_status", dict_get data "UsdaStatus");
         ("yard_release_status", dict_get data "YardReleaseStatus");
         ("misc_hold_status", dict_get data "MiscHoldStatus");
         ("misc_hold_detail", dict_get data "MiscHoldDetail");
         ("is_terminal_hold", dict_get_or data "IsTerminalHold" (PyBool false));
         ("carrier_hold", dict_get_or data "CarrierHold" (PyInt 0));
         ("last_updated", PyStr now) ])
   else if String.eqb intent "last_free_day" then
     let last_free_date :=
       py_or (dict_get data "LastFreeDate") (dict_get data "LastFreeDt") in
     let line_last_free_date :=
       py_or (dict_get data "LineLastFreeDate") (dict_get data "LineLastFreeDt") in
     let free_days := dict_get_or data "FreeDays" (PyStr "0") in
     now <~ utcnow_z ;;
     ret (dict_of
       [ ("last_free_date", last_free_date);
         ("line_last_free_date", line_last_free_date);
         ("free_days", free_days);
         ("first_free_date", dict_get data "FirstFreeDate");
         ("demurrage_due_flag", dict_get data "DemurrageDueFlag");
         ("demurrage_amount",
            dict_get_or data "DemurrageAmount" (PyFloat float_zero));
         ("line_demurrage_amount",
            dict_get_or data "LineDemurrageAmount" (PyFloat float_zero));
         ("is_on_demurrage_warning",
            dict_get_or data "IsOnDemurrageWarning" (PyBool false));
         ("last_updated", PyStr now) ])
   else if String.eqb intent "all" then
     let '(has_holds, hold_types) := _has_holds env data in
     let available := py_eq_int (dict_get_or data "Available" (PyInt 0)) 2 in
     let last_free_date :=
       py_or (dict_get data "LastFreeDate") (dict_get data "LastFreeDt") in
     let line_last_free_date :=
       py_or (dict_get data "LineLastFreeDate") (dict_get data "LineLastFreeDt") in
     now1 <~ utcnow_z ;;
     now2 <~ utcnow_z ;;
     now3 <~ utcnow_z ;;
     now4 <~ utcnow_z ;;
     now5 <~ utcnow_z ;;
     ret (dict_of
       [ ("status", dict_of
           [ ("status", dict_get_or data "State" (PyStr "Unknown"));
             ("container_state",
                dict_get_or data "ContainerState" (PyStr "Unknown"));
             ("location", dict_get_or data "Location" (PyStr "Unknown"));
             ("available", PyBool available);
             ("availability_display_status",
                dict_get_or data "AvailabilityDisplayStatus" (PyStr "Unknown"));
             ("last_updated", PyStr now1) ]);
         ("location", dict_of
           [ ("location", dict_get_or data "Location" (PyStr "Unknown"));
             ("yard_name", dict_get data "YardName");
             ("block", dict_get data "Block");
             ("bay", dict_get data "Bay");
             ("position", dict_get data "Position");
             ("state", dict_get_or data "State" (PyStr "Unknown"));
             ("container_state",
                dict_get_or data "ContainerState" (PyStr "Unknown"));
             ("last_updated", PyStr now2) ]);
         ("availability", dict_of
           [ ("available", PyBool available);
             ("availability_display_status",
                dict_get_or data "AvailabilityDisplayStatus" (PyStr "No"));
             ("available_for_pickup", PyBool (available && negb has_holds));
             ("order_of_accessibility", dict_get data "OrderOfAccessibility");
             ("last_updated", PyStr now3) ]);
         ("holds", dict_of
           [ ("has_holds", PyBool has_holds);
             ("hold_types", PyList (PyStr <$> hold_types));
             ("carrier_release_status", dict_get data "CarrierReleaseStatus");
             ("custom_release_status", dict_get data "CustomReleaseStatus");
             ("usda_status", dict_get data "UsdaStatus");
             ("yard_release_status", dict_get data "YardReleaseStatus");
             ("misc_hold_status", dict_get data "MiscHoldStatus");
             ("misc_hold_detail", dict_get data "MiscHoldDetail");
             ("is_terminal_hold",
                dict_get_or data "IsTerminalHold" (PyBool false));
             ("carrier_hold", dict_get_or data "CarrierHold" (PyInt 0));
             ("last_updated", PyStr now4) ]);
         ("last_free_day", dict_of
           [ ("last_free_date", last_free_date);
             ("line_last_free_date", line_last_free_date);
             ("free_days", dict_get_or data "FreeDays" (PyStr "0"));
             ("first_free_date", dict_get data "FirstFreeDate");
             ("demurrage_due_flag", dict_get data "DemurrageDueFlag");
             ("demurrage_amount",
                dict_get_or data "DemurrageAmount" (PyFloat float_zero));
             ("line_demurrage_amount",
                dict_get_or data "LineDemurrageAmount" (PyFloat float_zero));
             ("is_on_demurrage_warning",
                dict_get_or data "IsOnDemurrageWarning" (PyBool false));
             ("last_updated", PyStr now5) ]) ])
   else
     now <~ utcnow_z ;;
     ret (dict_of [ ("raw_data", PyDict data); ("last_updated", PyStr now) ])) env.

(** ** Fetch activity: [_fetch_container_from_api] and [scrape_pnct_activity] *)

Definition PNCT_API_BASE_URL : string :=
  "https://twpapi.pachesapeake.com/api/track/GetContainers".
Definition PNCT_SITE_ID : string := "PNCT_NJ".

(** [await client.get(url)]: one HTTP GET, logged in the world; the answer is
    the environment's for this request number and URL. *)
Definition client_get (url : string) : Act (Z * string * option value) :=
  λ env w,
    let w' := {| clock_reads := clock_reads w; requests := requests w ++ [url];
                 attempts := attempts w; timers := timers w |} in
    match upstream env (length (requests w)) url with
    | TransportFailure msg => (Raises (RequestError msg), w')
    | HttpResponse status_code text json =>
        (Returns (status_code, text, json), w')
    end.

(** [response.raise_for_status()]: httpx raises [HTTPStatusError] unless the
    status code is a 2xx. *)
Definition raise_for_status (response : Z * string * option value) : Act unit :=
  let '(status_code, text, _) := response in
  if (200 <=? status_code) && (status_code <=? 299) then ret tt
  else raise (HTTPStatusError status_code text).

(** [response.json()] *)
Definition response_json (response : Z * string * option value) : Act value :=
  let '(_, text, json) := response in
  match json with
  | Some data => ret data
  | None => raise (JSONDecodeError text)
  end.

Definition _fetch_container_from_api (container_id : string) : Act value :=
  timestamp <~ time_millis ;;
  let url := PNCT_API_BASE_URL +:+ "?siteId=" +:+ PNCT_SITE_ID +:+ "&key="
             +:+ container_id +:+ "&_=" +:+ pretty timestamp in
  response <~ client_get url ;;
  _ <~ raise_for_status response ;;
  data <~ response_json response ;;
  match data with
  | PyList (first :: _) => ret first
  | PyDict _ => ret data
  | _ => ret PyNone
  end.

Definition scrape_pnct_activity (container_id intent : string) : Act value :=
  if negb (truthy (PyStr container_id)) || Nat.ltb (String.length container_id) 4
  then raise (ValueError ("Invalid container ID format: " +:+ container_id))
  else
    try_except
      (container_data <~ _fetch_container_from_api container_id ;;
       if negb (truthy container_data)
       then raise (ValueError
                     ("Container " +:+ container_id +:+ " not found in PNCT system"))
       else
         scraped_data <~ _extract_data_by_intent container_data intent ;;
         scraped_at <~ utcnow_z ;;
         ret (dict_of
           [ ("container_id", PyStr container_id);
             ("intent", PyStr intent);
             ("data", scraped_data);
             ("scraped_at", PyStr scraped_at) ]))
      (λ e,
         match e with
         | HTTPStatusError status_code text =>
             if status_code =? 404
             then raise (ValueError ("Container " +:+ container_id +:+ " not found"))
             else raise (Exception
                           ("API error: " +:+ pretty status_code +:+ " - " +:+ text))
         | RequestError msg => raise (Exception ("Network error: " +:+ msg))
         | _ => raise e
         end).

(** The failure kinds of the activity, by the [raise] statement they come
    from. *)
Definition InvalidInput (container_id : string) : exn :=
  ValueError ("Invalid container ID format: " +:+ container_id).
Definition NotFound_record (container_id : string) : exn :=
  ValueError ("Container " +:+ container_id +:+ " not found in PNCT system").
Definition NotFound_404 (container_id : string) : exn :=
  ValueError ("Container " +:+ container_id +:+ " not found").
Definition UpstreamError (status_code : Z) (text : string) : exn :=
  Exception ("API error: " +:+ pretty status_code +:+ " - " +:+ text).
Definition NetworkError (msg : string) : exn :=
  Exception ("Network error: " +:+ msg).

Definition is_NotFound (container_id : string) (e : exn) : Prop :=
  e = NotFound_record container_id ∨ e = NotFound_404 container_id.

(** ** Orchestration wrapper: [PNCTScrapeWorkflow.run]

    [workflow.execute_activity] is the workflow engine's.  Its retry loop is
    modelled after the engine's documented behaviour: an attempt that raises
    is retried after a backoff wait unless the failure's type name is listed
    in [non_retryable_error_types] or [maximum_attempts] (when not 0, which
    means unlimited) is reached; the wait before retry number [n] is
    [initial_interval * backoff_coefficient ^ (n - 1)], capped by
    [maximum_interval] (100 times the initial interval when unset).  An
    activity that fails for good surfaces in the workflow as [ActivityError]
    around the last failure.  Timeouts in real time are not modelled. *)

Record RetryPolicy : Type := {
  initial_interval : Q;
  backoff_coefficient : Q;
  maximum_interval : option Q;
  maximum_attempts : nat;
  non_retryable_error_types : list string;
}.

Definition backoff_interval (policy : RetryPolicy) (attempt : nat) : Q :=
  let cap := default (100 * initial_interval policy)%Q (maximum_interval policy) in
  let interval :=
    (initial_interval policy * backoff_coefficient policy ^ Z.of_nat (attempt - 1))%Q in
  Qred (if Qle_bool interval cap then interval else cap).

Definition may_retry (policy : RetryPolicy) (attempt : nat) (e : exn) : bool :=
  negb (bool_decide (exn_type_name e ∈ non_retryable_error_types policy))
  && (Nat.eqb (maximum_attempts policy) 0
      || Nat.ltb attempt (maximum_attempts policy)).

Definition start_attempt (w : World) : World :=
  {| clock_reads := clock_reads w; requests := requests w;
     attempts := S (attempts w); timers := timers w |}.

Definition wait (seconds : Q) (w : World) : World :=
  {| clock_reads := clock_reads w; requests := requests w;
     attempts := attempts w; timers := timers w ++ [seconds] |}.

(** Attempt number [attempt] (counted from 1) and the retries after it.  The
    loop is unbounded when [maximum_attempts] is 0, hence the fuel. *)
Fixpoint execute_activity_from (fuel : nat) (policy : RetryPolicy)
    (activity : Act value) (attempt : nat) (env : Env) (w : World)
  : option (outcome value * World) :=
  match fuel with
  | O => None
  | S fuel' =>
      match activity env (start_attempt w) with
      | (Returns result, w') => Some (Returns result, w')
      | (Raises e, w') =>
          if may_retry policy attempt e
          then execute_activity_from fuel' policy activity (S attempt) env
                 (wait (backoff_interval policy attempt) w')
          else Some (Raises (ActivityError e), w')
      end
  end.

Definition execute_activity (fuel : nat) (activity : Act value)
    (start_to_close_timeout : Q) (retry_policy : RetryPolicy)
    (env : Env) (w : World) : option (outcome value * World) :=
  execute_activity_from fuel retry_policy activity 1 env w.

Definition PNCTScrapeWorkflow_run (fuel : nat) (container_id intent : string)
    (env : Env) (w : World) : option (outcome value * World) :=
  execute_activity fuel
    (scrape_pnct_activity container_id intent)
    60%Q
    {| initial_interval := 1;
       backoff_coefficient := 2;
       maximum_interval := Some 10%Q;
       maximum_attempts := 3;
       non_retryable_error_types := [] |}
    env w.

(** ** Reading a projected view *)

(** [view[k]] when [view] is a dict that has the key. *)
Definition field (view : value) (k : string) : option value :=
  match view with
  | PyDict m => m !! k
  | _ => None
  end.

(** The first binding of [k] in a list of items. *)
Fixpoint assoc (k : string) (items : list (string * value)) : option value :=
  match items with
  | [] => None
  | (k', v) :: rest => if String.eqb k' k then Some v else assoc k rest
  end.

(** A fixed environment and records for the concrete evaluations below. *)
Definition env0 : Env :=
  {| utcnow_isoformat := λ _, "2024-05-01T12:00:00";
     time_ms := λ _, 1714564800000;
     upstream := λ _ _, HttpResponse 404 "" None;
     str_other := λ _, "" |}.

(** The six hold conditions with their labels, in the order Carrier,
    Customs, USDA, Yard, Misc, Terminal (the specification's list, to be
    compared with what [_has_holds] computes). *)
Definition hold_conditions (env : Env) (data : gmap string value)
  : list (bool * string) :=
  [ (py_eq_str (dict_get data "CarrierReleaseStatus") "HOLD", "Carrier Hold");
    (negb (py_eq_str (dict_get data "CustomReleaseStatus") "RELEASED"),
       "Customs Hold");
    (negb (py_eq_str (dict_get data "UsdaStatus") "RELEASED"), "USDA Hold");
    (truthy (dict_get data "YardReleaseStatus")
     && negb (py_eq_str (dict_get data "YardReleaseStatus") "RELEASED"),
       "Yard Hold");
    (truthy (dict_get data "MiscHoldStatus"),
       "Misc Hold: " +:+ py_str env (dict_get data "MiscHoldStatus"));
    (truthy (dict_get data "IsTerminalHold"), "Terminal Hold") ].

(** The labels of the conditions that are triggered, order kept. *)
Definition triggered_labels (conds : list (bool * string)) : list string :=
  snd <$> List.filter fst conds.

(** [{"CustomReleaseStatus": "PENDING", "IsTerminalHold": true}] *)
Definition record_pending_terminal : gmap string value :=
  list_to_map [ ("CustomReleaseStatus", PyStr "PENDING");
                ("IsTerminalHold", PyBool true) ].

(** The timestamp a projection that starts in world [w] puts in
    [last_updated]. *)
Definition stamp (env : Env) (w : World) : string :=
  utcnow_isoformat env (clock_reads w) +:+ "Z".

(** The intents [_extract_data_by_intent] tests for. *)
Definition known_intents : list string :=
  [ "status"; "location"; "availability"; "holds"; "last_free_day"; "all" ].

(** A field that is present in the record with a truthy value. *)
Definition present_truthy (data : gmap string value) (k : string) : Prop :=
  ∃ v, data !! k = Some v ∧ truthy v = true.

(** [{"Block": "A", "Bay": 0}]: both fields present, [Bay] falsy. *)
Definition record_bay_zero : gmap string value :=
  list_to_map [ ("Block", PyStr "A"); ("Bay", PyInt 0) ].

(** [{"Block": "A", "Bay": "12"}] *)
Definition record_block_bay : gmap string value :=
  list_to_map [ ("Block", PyStr "A"); ("Bay", PyStr "12") ].

(** The URL the activity requests when it starts in world [w], and the
    upstream's answer to that request. *)
Definition request_url (env : Env) (w : World) (container_id : string) : string :=
  PNCT_API_BASE_URL +:+ "?siteId=" +:+ PNCT_SITE_ID +:+ "&key="
  +:+ container_id +:+ "&_=" +:+ pretty (time_ms env (clock_reads w)).

Definition answer_to (env : Env) (w : World) (container_id : string) : http_outcome :=
  upstream env (length (requests w)) (request_url env w container_id).

(** The world after the activity's clock read and its one HTTP GET. *)
Definition after_request (env : Env) (w : World) (container_id : string) : World :=
  {| clock_reads := S (clock_reads w);
     requests := requests w ++ [request_url env w container_id];
     attempts := attempts w; timers := timers w |}.

(** The record a decoded body stands for, in the specification's words: the
    first element of a non-empty array, the object itself, nothing (None) for
    any other shape. *)
Definition record_of (body : value) : value :=
  match body with
  | PyList (first :: _) => first
  | PyDict _ => body
  | _ => PyNone
  end.

(** Readings of "an empty or null body": JSON null, the empty array, the
    empty object, the empty string. *)
Definition empty_or_null (body : value) : Prop :=
  body = PyNone ∨ body = PyList [] ∨ body = PyDict ∅ ∨ body = PyStr "".

(** A body that is neither an array nor an object. *)
Definition other_shape (body : value) : Prop :=
  match body with
  | PyList _ | PyDict _ => False
  | _ => True
  end.

Definition is_2xx (status_code : Z) : bool :=
  (200 <=? status_code) && (status_code <=? 299).

(** The value a successful activity returns for the projected view
    [scraped_data], stamped in world [w]. *)
Definition activity_result (env : Env) (w : World) (container_id intent : string)
    (scraped_data : value) : value :=
  dict_of [ ("container_id", PyStr container_id);
            ("intent", PyStr intent);
            ("data", scraped_data);
            ("scraped_at", PyStr (stamp env w)) ].

(** Upstreams for the concrete evaluations: one that answers 200 with a
    given body text and its decoding, one that answers 503 three times and
    then 200 with a record (the text of a 2xx answer is never read). *)
Definition env_body (text : string) (body : value) : Env :=
  {| utcnow_isoformat := λ _, "2024-05-01T12:00:00";
     time_ms := λ _, 1714564800000;
     upstream := λ _ _, HttpResponse 200 text (Some body);
     str_other := λ _, "" |}.

Definition env_503_then_200 : Env :=
  {| utcnow_isoformat := λ _, "2024-05-01T12:00:00";
     time_ms := λ _, 1714564800000;
     upstream := λ k _,
       if Nat.ltb k 3 then HttpResponse 503 "Service Unavailable" None
       else HttpResponse 200 "" (Some (PyList [ PyDict {[ "State" := PyStr "IN YARD" ]} ]));
     str_other := λ _, "" |}.

(** What C8 names as the cases of [NotFound]: status 404, or a body that is
    empty or null (read widely: also one that does not decode) or of another
    shape than array and object. *)
Definition claimed_not_found (answer : http_outcome) : Prop :=
  match answer with
  | TransportFailure _ => False
  | HttpResponse status_code _ json =>
      status_code = 404
      ∨ json = None
      ∨ ∃ body, json = Some body ∧ (empty_or_null body ∨ other_shape body)
  end.

(** The retry policy [PNCTScrapeWorkflow.run] passes to the engine. *)
Definition pnct_retry_policy : RetryPolicy :=
  {| initial_interval := 1;
     backoff_coefficient := 2;
     maximum_interval := Some 10%Q;
     maximum_attempts := 3;
     non_retryable_error_types := [] |}.

(** [{"State": "IN YARD"}] and an upstream that always answers 200 with the
    one-element array holding it; an upstream that answers 200 with the array
    [["abc"]]. *)
Definition record_in_yard : gmap string value := {[ "State" := PyStr "IN YARD" ]}.

Definition env_in_yard : Env :=
  env_body "[record]" (PyList [ PyDict record_in_yard ]).


(** An upstream whose transport always fails, and one that always answers
    502. *)
Definition env_unreachable : Env :=
  {| utcnow_isoformat := λ _, "2024-05-01T12:00:00";
     time_ms := λ _, 1714564800000;
     upstream := λ _ _, TransportFailure "All connection attempts failed";
     str_other := λ _, "" |}.

Definition env_502 : Env :=
  {| utcnow_isoformat := λ _, "2024-05-01T12:00:00";
     time_ms := λ _, 1714564800000;
     upstream := λ _ _, HttpResponse 502 "Bad Gateway" None;
     str_other := λ _, "" |}.

(** An upstream that answers 503 twice and then 200 with a record. *)
Definition env_503_twice : Env :=
  {| utcnow_isoformat := λ _, "2024-05-01T12:00:00";
     time_ms := λ _, 1714564800000;
     upstream := λ k _,
       if Nat.ltb k 2 then HttpResponse 503 "Service Unavailable" None
       else HttpResponse 200 "[record]" (Some (PyList [ PyDict record_in_yard ]));
     str_other := λ _, "" |}.

(** ** The proxy tiers: [scraper_api.py], [mcp_tools/http_server.py] and
    [ContainerAgent.call_mcp_tool]

    Each tier is a handler between an HTTP client and the tier below.  What a
    POST through httpx produces is an exception of the transport or a
    response; what a FastAPI handler produces is a returned body or an
    [HTTPException]. *)

Inductive transport_exn : Type :=
| TimeoutException (msg : string)
| ConnectError (msg : string)
| HttpxNetworkError (msg : string)     (* httpx.NetworkError other than ConnectError *)
| OtherTransportError (msg : string).  (* any other exception of the POST *)

(** A response: status code, body text, and what [response.json()] gives,
    the decoded body or the message of the decoding error. *)
Record response : Type := {
  resp_status : Z;
  resp_text : string;
  resp_json : value + string;
}.

(** [client.post(endpoint, json=body)] *)
Definition client : Type := string → value → transport_exn + response.

Inductive handled : Type :=
| Return (body : value)
| HTTPException (status_code : Z) (detail : string).

(** [os.getenv(name, default)] *)
Definition getenv_or (getenv : string → option string) (name dflt : string) : string :=
  default dflt (getenv name).

(** [sep.join(items)] *)
Fixpoint join (sep : string) (items : list string) : string :=
  match items with
  | [] => ""
  | item :: rest =>
      match rest with
      | [] => item
      | _ => item +:+ sep +:+ join sep rest
      end
  end.

(** [needle in hay] for two strings *)
Fixpoint contains (needle hay : string) : bool :=
  String.prefix needle hay
  || match hay with
     | EmptyString => false
     | String _ rest => contains needle rest
     end.

(** [s.lower()] on characters below 256: the ASCII capitals and the Latin-1
    capitals (all of 192 to 222 but the multiplication sign 215) move up by
    32. *)
Definition lower_char (c : Ascii.ascii) : Ascii.ascii :=
  let n := Ascii.nat_of_ascii c in
  if (Nat.leb 65 n && Nat.leb n 90)
     || (Nat.leb 192 n && Nat.leb n 222 && negb (Nat.eqb n 215))
  then Ascii.ascii_of_nat (n + 32) else c.

Fixpoint lower (s : string) : string :=
  match s with
  | EmptyString => EmptyString
  | String c rest => String (lower_char c) (lower rest)
  end.

(** The [validate_intent] field validator, the same text in [ScrapeRequest]
    and [QueryContainerRequest]: the value itself, or the message of the
    [ValueError] it raises. *)
Definition valid_intents : list string :=
  [ "status"; "location"; "availability"; "holds"; "last_free_day"; "all" ].

Definition validate_intent (v : string) : string + string :=
  if bool_decide (v ∈ valid_intents) then inl v
  else inr ("intent must be one of: " +:+ join ", " valid_intents).

(** [ScrapeRequest(container_id=..., intent=...)] on two strings: the model,
    or None for pydantic's validation error ([min_length=1] on
    [container_id], the validator on [intent]). *)
Definition ScrapeRequest (container_id intent : string) : option (string * string) :=
  if Nat.leb 1 (String.length container_id) then
    match validate_intent intent with
    | inl intent' => Some (container_id, intent')
    | inr _ => None
    end
  else None.

Definition QueryContainerRequest (container_id intent : string)
  : option (string * string) :=
  if Nat.leb 1 (String.length container_id) then
    match validate_intent intent with
    | inl intent' => Some (container_id, intent')
    | inr _ => None
    end
  else None.

(** *** [scraper_api.scrape] *)

(** What the Temporal client gives the handler: the imports fail, or
    connecting, starting the workflow or awaiting its result raises (with
    [str(e)]), or the workflow's result comes back. *)
Inductive temporal_run : Type :=
| ImportFails (msg : string)
| RunFails (msg : string)
| RunReturns (result : value).

Definition DEFAULT_TEMPORAL_HOST : string := "localhost:7233".

Definition get_temporal_host (getenv : string → option string) : string :=
  getenv_or getenv "TEMPORAL_HOST" DEFAULT_TEMPORAL_HOST.

(** The [id] the workflow is started with, which is also [handle.id]. *)
Definition workflow_id (container_id intent : string) : string :=
  "pnct-scrape-" +:+ container_id +:+ "-" +:+ intent.

Definition scrape (getenv : string → option string)
    (temporal : string → string → string → temporal_run)
    (container_id intent : string) : handled :=
  match temporal (workflow_id container_id intent) container_id intent with
  | ImportFails msg =>
      HTTPException 503 ("Temporal client not available: " +:+ msg)
  | RunFails msg =>
      let temporal_host := get_temporal_host getenv in
      if contains "Connection" msg || contains "connect" (lower msg)
      then HTTPException 503
             ("Cannot connect to Temporal server at " +:+ temporal_host)
      else HTTPException 500 ("Error executing workflow: " +:+ msg)
  | RunReturns result =>
      let data :=
        match result with
        | PyDict m =>
            match m !! "data" with
            | Some data => data
            | None => result
            end
        | _ => result
        end in
      Return (dict_of
        [ ("container_id", PyStr container_id);
          ("intent", PyStr intent);
          ("data", data);
          ("workflow_id", PyStr (workflow_id container_id intent)) ])
  end.

(** *** [http_server.tool_query_container] *)

Definition DEFAULT_SCRAPER_API_URL : string := "http://localhost:8002".

Definition get_scraper_api_url (getenv : string → option string) : string :=
  getenv_or getenv "PNCT_SCRAPER_API_URL" DEFAULT_SCRAPER_API_URL.

Definition tool_query_container (getenv : string → option string)
    (client_post : client) (container_id intent : string) : handled :=
  let scraper_api_url := get_scraper_api_url getenv in
  let endpoint := scraper_api_url +:+ "/scrape" in
  match client_post endpoint
          (dict_of [ ("container_id", PyStr container_id);
                     ("intent", PyStr intent) ]) with
  | inr response =>
      if resp_status response =? 200 then
        match resp_json response with
        | inl result => Return result
        | inr msg => HTTPException 500 ("Unexpected error: " +:+ msg)
        end
      else if resp_status response =? 404 then
        HTTPException 404 ("Container " +:+ container_id +:+ " not found")
      else if resp_status response =? 500 then
        HTTPException 500 "PNCT Scraper API error"
      else
        HTTPException 500
          ("Unexpected error from scraper API: " +:+ resp_text response)
  | inl (TimeoutException _) =>
      HTTPException 504 "Timeout waiting for PNCT Scraper API response"
  | inl (ConnectError _) =>
      HTTPException 503
        ("Cannot connect to PNCT Scraper API at " +:+ scraper_api_url
         +:+ ". Make sure the scraper API is running.")
  | inl (HttpxNetworkError msg) => HTTPException 503 ("Network error: " +:+ msg)
  | inl (OtherTransportError msg) =>
      HTTPException 500 ("Unexpected error: " +:+ msg)
  end.

(** *** [ContainerAgent.call_mcp_tool] *)



(** *** The tiers put together

    FastAPI answers a handler's returned body with status 200, an
    [HTTPException] with its status and the body [{"detail": detail}], and a
    request body that does not validate with status 422.  [render] is the JSON
    text of a body, [validation_error] the body of a 422 answer. *)









(** Whether a string has no hyphen. *)
Definition hyphen : Ascii.ascii := Ascii.ascii_of_nat 45.

Fixpoint hyphen_free (s : string) : bool :=
  match s with
  | EmptyString => true
  | String c rest => negb (Ascii.eqb c hyphen) && hyphen_free rest
  end.




Definition client_201 : client :=
  λ _ _, inr {| resp_status := 201; resp_text := "{}"; resp_json := inl (PyDict ∅) |}.


(** An upstream that answers 503, then 502, then 404. *)
Definition env_503_502_404 : Env :=
  {| utcnow_isoformat := λ _, "2024-05-01T12:00:00";
     time_ms := λ _, 1714564800000;
     upstream := λ k _,
       if Nat.eqb k 0 then HttpResponse 503 "Service Unavailable" None
       else if Nat.eqb k 1 then HttpResponse 502 "Bad Gateway" None
       else HttpResponse 404 "Not Found" None;
     str_other := λ _, "" |}.

(** ** Lemmas on dicts *)

Lemma lookup_list_to_map_assoc (items : list (string * value)) (k : string) :
  (list_to_map items : gmap string value) !! k = assoc k items.
Proof.
  induction items as [|[k' v] rest IH]; simpl.
  - apply lookup_empty.
  - destruct (String.eqb_spec k' k) as [->|Hne].
    + apply lookup_insert_eq.
    + rewrite lookup_insert_ne by done. exact IH.
Qed.

Lemma field_dict_of (items : list (string * value)) (k : string) :
  field (dict_of items) k = assoc k items.
Proof. apply lookup_list_to_map_assoc. Qed.

Lemma dict_get_empty (k : string) : dict_get ∅ k = PyNone.
Proof. unfold dict_get. by rewrite lookup_empty. Qed.

Lemma dict_get_or_empty (k : string) (dflt : value) : dict_get_or ∅ k dflt = dflt.
Proof. unfold dict_get_or. by rewrite lookup_empty. Qed.

Lemma dict_get_absent (d : gmap string value) (k : string) :
  d !! k = None → dict_get d k = PyNone.
Proof. unfold dict_get. by intros ->. Qed.

Lemma py_eq_str_true (v : value) (s : string) :
  py_eq_str v s = true ↔ v = PyStr s.
Proof.
  destruct v; simpl; try (split; [discriminate | congruence]).
  rewrite String.eqb_eq. split; congruence.
Qed.

(** ** Hold assessment and availability *)

Lemma dict_get_or_eq_int (d : gmap string value) (k : string) (n : Z) :
  n ≠ 0 →
  py_eq_int (dict_get_or d k (PyInt 0)) n = true
  ↔ ∃ v, d !! k = Some v ∧ py_eq_int v n = true.
Proof.
  intros Hn. unfold dict_get_or. destruct (d !! k) as [v|]; simpl.
  - split; [eauto | by intros (? & [= <-] & ?)].
  - split; [by destruct n | by intros (? & ? & ?)].
Qed.

(** Runs [_extract_data_by_intent] on a dict for a literal intent. *)
Ltac run_projection :=
  unfold _extract_data_by_intent, get_method, bind, ret, utcnow_z;
  match goal with
  | |- context [_has_holds ?env ?data] =>
      let Hholds := fresh "Hholds" in
      destruct (_has_holds env data) as [has_holds hold_types] eqn:Hholds
  end;
  cbn [String.eqb Ascii.eqb Bool.eqb].

(** C1. Under intent [availability] the view of any record carries a boolean
    [available_for_pickup], and it is true exactly when the record has an
    [Available] field that equals 2 and the hold assessment reports no
    holds. *)
Theorem available_for_pickup_iff (env : Env) (w : World) (data : gmap string value) :
  ∃ view w' b,
    _extract_data_by_intent (PyDict data) "availability" env w = (Returns view, w')
    ∧ field view "available_for_pickup" = Some (PyBool b)
    ∧ (b = true ↔
         (∃ v, data !! "Available" = Some v ∧ py_eq_int v 2 = true)
         ∧ fst (_has_holds env data) = false).
Proof.
  run_projection. cbn [fst].
  eexists _, _, _. split; [reflexivity|]. split.
  - rewrite field_dict_of. reflexivity.
  - rewrite andb_true_iff, negb_true_iff.
    by rewrite dict_get_or_eq_int.
Qed.

Lemma has_holds_spec (env : Env) (data : gmap string value) :
  _has_holds env data
  = (existsb fst (hold_conditions env data),
     triggered_labels (hold_conditions env data)).
Proof.
  unfold _has_holds, hold_conditions, triggered_labels, append_if.
  destruct (py_eq_str (dict_get data "CarrierReleaseStatus") "HOLD"),
    (py_eq_str (dict_get data "CustomReleaseStatus") "RELEASED"),
    (py_eq_str (dict_get data "UsdaStatus") "RELEASED"),
    (truthy (dict_get data "YardReleaseStatus")),
    (py_eq_str (dict_get data "YardReleaseStatus") "RELEASED"),
    (truthy (dict_get data "MiscHoldStatus")),
    (truthy (dict_get data "IsTerminalHold")); reflexivity.
Qed.

Lemma triggered_labels_sublist (conds : list (bool * string)) :
  triggered_labels conds `sublist_of` (snd <$> conds).
Proof.
  unfold triggered_labels.
  induction conds as [|[[] label] rest IH]; simpl.
  - constructor.
  - by apply sublist_skip.
  - by apply sublist_cons.
Qed.

(** C2 (amended). Whatever subset of the hold conditions is triggered, the
    labels come out in the order Carrier, Customs, USDA, Yard, Misc, Terminal:
    [hold_types] is the list of the six labels with the untriggered ones
    removed.  The record with only [CustomReleaseStatus = "PENDING"] and
    [IsTerminalHold = true] yields Customs, USDA, Terminal, since its absent
    [UsdaStatus] is not "RELEASED". *)
Theorem hold_types_fixed_order :
  (∀ env data,
     snd (_has_holds env data) = triggered_labels (hold_conditions env data)
     ∧ snd (_has_holds env data) `sublist_of`
         [ "Carrier Hold"; "Customs Hold"; "USDA Hold"; "Yard Hold";
           "Misc Hold: " +:+ py_str env (dict_get data "MiscHoldStatus");
           "Terminal Hold" ])
  ∧ (∀ env,
       _has_holds env record_pending_terminal
       = (true, [ "Customs Hold"; "USDA Hold"; "Terminal Hold" ])).
Proof.
  split.
  - intros env data. rewrite has_holds_spec. split; [done|].
    apply (triggered_labels_sublist (hold_conditions env data)).
  - intros env. reflexivity.
Qed.

(** C2, as stated, fails on its own example: the record with only
    [CustomReleaseStatus = "PENDING"] and [IsTerminalHold = true] does not
    yield exactly Customs, Terminal. *)
Lemma hold_types_pending_terminal_not_two :
  snd (_has_holds env0 record_pending_terminal)
  ≠ [ "Customs Hold"; "Terminal Hold" ].
Proof. vm_compute. discriminate. Qed.

Lemma dict_get_is_str (d : gmap string value) (k s : string) :
  dict_get d k = PyStr s ↔ d !! k = Some (PyStr s).
Proof.
  unfold dict_get. destruct (d !! k); simpl; split; congruence.
Qed.

Ltac case_hold_conditions :=
  repeat match goal with
    | |- context [py_eq_str ?v ?s] => destruct (py_eq_str v s)
    | |- context [truthy ?v] => destruct (truthy v)
    end.

Lemma not_released_triggers (env : Env) (data : gmap string value)
    (k label : string) :
  (negb (py_eq_str (dict_get data k) "RELEASED"), label) ∈ hold_conditions env data →
  data !! k = None →
  fst (_has_holds env data) = true ∧ label ∈ snd (_has_holds env data).
Proof.
  intros Hin Habs. rewrite has_holds_spec. cbn [fst snd].
  apply dict_get_absent in Habs. rewrite Habs in Hin. cbn [py_eq_str negb] in Hin.
  split.
  - apply existsb_exists. exists (true, label). split; [|done].
    by apply list_elem_of_In.
  - unfold triggered_labels. apply list_elem_of_fmap. exists (true, label).
    split; [done|]. apply list_elem_of_In, filter_In. split; [|done].
    by apply list_elem_of_In.
Qed.

(** C10. A record without [CustomReleaseStatus] has a Customs Hold and one
    without [UsdaStatus] a USDA Hold; the empty record has exactly these two
    holds and is not available for pickup; a Carrier Hold is reported only for
    [CarrierReleaseStatus] equal to "HOLD", so not when the field is absent. *)
Theorem absent_release_status_is_hold :
  (∀ env data, data !! "CustomReleaseStatus" = None →
     fst (_has_holds env data) = true
     ∧ "Customs Hold" ∈ snd (_has_holds env data))
  ∧ (∀ env data, data !! "UsdaStatus" = None →
       fst (_has_holds env data) = true
       ∧ "USDA Hold" ∈ snd (_has_holds env data))
  ∧ (∀ env, _has_holds env ∅ = (true, [ "Customs Hold"; "USDA Hold" ]))
  ∧ (∀ env w, ∃ view w',
       _extract_data_by_intent (PyDict ∅) "availability" env w = (Returns view, w')
       ∧ field view "available_for_pickup" = Some (PyBool false))
  ∧ (∀ env data,
       "Carrier Hold" ∈ snd (_has_holds env data)
       ↔ data !! "CarrierReleaseStatus" = Some (PyStr "HOLD"))
  ∧ (∀ env data, data !! "CarrierReleaseStatus" = None →
       "Carrier Hold" ∉ snd (_has_holds env data)).
Proof.
  assert (Hcarrier : ∀ env data,
     "Carrier Hold" ∈ snd (_has_holds env data)
     ↔ data !! "CarrierReleaseStatus" = Some (PyStr "HOLD")).
  { intros env data. rewrite <- dict_get_is_str, <- py_eq_str_true.
    rewrite has_holds_spec. unfold hold_conditions, triggered_labels.
    destruct (py_eq_str (dict_get data "CarrierReleaseStatus") "HOLD").
    - split; [done|]. intros _. cbn. apply list_elem_of_here.
    - split; [|done]. case_hold_conditions; cbn;
        rewrite ?elem_of_cons, elem_of_nil; intros H;
        repeat destruct H as [H|H]; done. }
  split_and!.
  - intros env data.
    apply (not_released_triggers env data "CustomReleaseStatus" "Customs Hold").
    unfold hold_conditions. rewrite !elem_of_cons. tauto.
  - intros env data.
    apply (not_released_triggers env data "UsdaStatus" "USDA Hold").
    unfold hold_conditions. rewrite !elem_of_cons. tauto.
  - reflexivity.
  - intros env w. run_projection.
    eexists _, _. split; [reflexivity|].
    rewrite field_dict_of. cbn [assoc String.eqb Ascii.eqb Bool.eqb].
    rewrite dict_get_or_empty.
    assert (has_holds = true) as -> by (by injection Hholds).
    reflexivity.
  - apply Hcarrier.
  - intros env data Habs. rewrite Hcarrier, Habs. done.
Qed.

(** ** Placeholder coordinates *)

Lemma truthy_py_and (a b : value) :
  truthy (py_and a b) = truthy a && truthy b.
Proof. unfold py_and. by destruct (truthy a) eqn:Ha. Qed.

Lemma truthy_dict_get (data : gmap string value) (k : string) :
  truthy (dict_get data k) = true ↔ present_truthy data k.
Proof.
  unfold dict_get, present_truthy. destruct (data !! k) as [v|]; simpl.
  - split; [eauto | by intros (? & [= <-] & ?)].
  - split; [done | by intros (? & ? & ?)].
Qed.

(** The two float literals are the binary64 values nearest to 40.7032 and
    -74.1468: each is within half a unit in the last place. *)
Lemma coordinates_literals :
  Z.abs (407032 * 2 ^ 47 - 10000 * 5728466136024587) ≤ 5000
  ∧ Z.abs (741468 * 2 ^ 46 - 10000 * 5217617200792417) ≤ 5000
  ∧ field coordinates "lat" = Some (PyFloat (S754_finite false 5728466136024587 (-47)))
  ∧ field coordinates "lon" = Some (PyFloat (S754_finite true 5217617200792417 (-46))).
Proof. split_and!; [by vm_compute | by vm_compute | done | done]. Qed.

(** C9 (amended). Under intent [location] the view has a [coordinates] field,
    equal to the constant pair (lat 40.7032, lon -74.1468), exactly when both
    [Block] and [Bay] are present in the record with truthy values; otherwise
    it has no [coordinates] field. *)
Theorem coordinates_iff_block_and_bay_truthy (env : Env) (w : World)
    (data : gmap string value) :
  ∃ view w',
    _extract_data_by_intent (PyDict data) "location" env w = (Returns view, w')
    ∧ (field view "coordinates" = Some coordinates
       ↔ present_truthy data "Block" ∧ present_truthy data "Bay")
    ∧ (field view "coordinates" = None
       ↔ ¬ (present_truthy data "Block" ∧ present_truthy data "Bay")).
Proof.
  assert (Hiff : truthy (py_and (dict_get data "Block") (dict_get data "Bay")) = true
                 ↔ present_truthy data "Block" ∧ present_truthy data "Bay").
  { by rewrite truthy_py_and, andb_true_iff, !truthy_dict_get. }
  run_projection.
  destruct (truthy (py_and (dict_get data "Block") (dict_get data "Bay"))).
  - eexists _, _. split; [reflexivity|]. cbn [field].
    rewrite lookup_insert_eq. split; [tauto|].
    split; [done|]. intros Hnot. destruct Hnot. by apply Hiff.
  - eexists _, _. split; [reflexivity|]. cbn [field].
    rewrite lookup_list_to_map_assoc. cbn.
    split; [|split; [|done]].
    + split; [done|]. intros H%Hiff. done.
    + intros _ H%Hiff. done.
Qed.

(** C9, as stated, fails: in [{"Block": "A", "Bay": 0}] both fields are
    present, yet the [location] view has no [coordinates]. *)
Lemma coordinates_absent_though_present :
  is_Some (record_bay_zero !! "Block") ∧ is_Some (record_bay_zero !! "Bay")
  ∧ ∃ view w',
      _extract_data_by_intent (PyDict record_bay_zero) "location" env0 world0
      = (Returns view, w')
      ∧ field view "coordinates" = None.
Proof.
  split_and!; [by eexists | by eexists |].
  vm_compute. eexists _, _. split; reflexivity.
Qed.

(** ** Projecting the empty record *)

Lemma has_holds_empty (env : Env) :
  _has_holds env ∅ = (true, [ "Customs Hold"; "USDA Hold" ]).
Proof. reflexivity. Qed.

Ltac run_projection_empty :=
  unfold _extract_data_by_intent, get_method, bind, ret, utcnow_z, stamp;
  rewrite has_holds_empty;
  cbn [String.eqb Ascii.eqb Bool.eqb];
  rewrite ?dict_get_or_empty, ?dict_get_empty.

Lemma projection_total_on_dicts (env : Env) (w : World)
    (data : gmap string value) (intent : string) :
  ∃ view w', _extract_data_by_intent (PyDict data) intent env w = (Returns view, w').
Proof.
  unfold _extract_data_by_intent, get_method, bind, ret, utcnow_z.
  destruct (_has_holds env data) as [has_holds hold_types].
  repeat match goal with
    | |- context [String.eqb intent ?s] => destruct (String.eqb intent s)
    | |- context [truthy ?v] => destruct (truthy v)
    end;
    eexists _, _; reflexivity.
Qed.

(** C6. Projecting the empty record never fails, whatever the intent, and
    gives the defaults: "Unknown" for status, location and container state,
    [available] false, [free_days] "0", demurrage amounts 0.0, [carrier_hold]
    0, [is_terminal_hold] false; absent fields without a default are None, and
    an unrecognized intent passes the record through under [raw_data]. *)
Theorem project_empty_record (env : Env) (w : World) :
  (∀ intent, ∃ view w',
     _extract_data_by_intent (PyDict ∅) intent env w = (Returns view, w'))
  ∧ _extract_data_by_intent (PyDict ∅) "status" env w
    = (Returns (dict_of
         [ ("status", PyStr "Unknown");
           ("container_state", PyStr "Unknown");
           ("location", PyStr "Unknown");
           ("available", PyBool false);
           ("availability_display_status", PyStr "Unknown");
           ("last_updated", PyStr (stamp env w)) ]), tick w)
  ∧ _extract_data_by_intent (PyDict ∅) "location" env w
    = (Returns (dict_of
         [ ("location", PyStr "Unknown");
           ("yard_name", PyNone);
           ("block", PyNone);
           ("bay", PyNone);
           ("position", PyNone);
           ("state", PyStr "Unknown");
           ("container_state", PyStr "Unknown");
           ("last_updated", PyStr (stamp env w)) ]), tick w)
  ∧ _extract_data_by_intent (PyDict ∅) "availability" env w
    = (Returns (dict_of
         [ ("available", PyBool false);
           ("availability_display_status", PyStr "No");
           ("available_for_pickup", PyBool false);
           ("order_of_accessibility", PyNone);
           ("last_updated", PyStr (stamp env w)) ]), tick w)
  ∧ _extract_data_by_intent (PyDict ∅) "holds" env w
    = (Returns (dict_of
         [ ("has_holds", PyBool true);
           ("hold_types", PyList [ PyStr "Customs Hold"; PyStr "USDA Hold" ]);
           ("carrier_release_status", PyNone);
           ("custom_release_status", PyNone);
           ("usda_status", PyNone);
           ("yard_release_status", PyNone);
           ("misc_hold_status", PyNone);
           ("misc_hold_detail", PyNone);
           ("is_terminal_hold", PyBool false);
           ("carrier_hold", PyInt 0);
           ("last_updated", PyStr (stamp env w)) ]), tick w)
  ∧ _extract_data_by_intent (PyDict ∅) "last_free_day" env w
    = (Returns (dict_of
         [ ("last_free_date", PyNone);
           ("line_last_free_date", PyNone);
           ("free_days", PyStr "0");
           ("first_free_date", PyNone);
           ("demurrage_due_flag", PyNone);
           ("demurrage_amount", PyFloat (S754_zero false));
           ("line_demurrage_amount", PyFloat (S754_zero false));
           ("is_on_demurrage_warning", PyBool false);
           ("last_updated", PyStr (stamp env w)) ]), tick w)
  ∧ _extract_data_by_intent (PyDict ∅) "all" env w
    = (Returns (dict_of
         [ ("status", dict_of
             [ ("status", PyStr "Unknown");
               ("container_state", PyStr "Unknown");
               ("location", PyStr "Unknown");
               ("available", PyBool false);
               ("availability_display_status", PyStr "Unknown");
               ("last_updated", PyStr (stamp env w)) ]);
           ("location", dict_of
             [ ("location", PyStr "Unknown");
               ("yard_name", PyNone);
               ("block", PyNone);
               ("bay", PyNone);
               ("position", PyNone);
               ("state", PyStr "Unknown");
               ("container_state", PyStr "Unknown");
               ("last_updated", PyStr (stamp env (tick w))) ]);
           ("availability", dict_of
             [ ("available", PyBool false);
               ("availability_display_status", PyStr "No");
               ("available_for_pickup", PyBool false);
               ("order_of_accessibility", PyNone);
               ("last_updated", PyStr (stamp env (tick (tick w)))) ]);
           ("holds", dict_of
             [ ("has_holds", PyBool true);
               ("hold_types", PyList [ PyStr "Customs Hold"; PyStr "USDA Hold" ]);
               ("carrier_release_status", PyNone);
               ("custom_release_status", PyNone);
               ("usda_status", PyNone);
               ("yard_release_status", PyNone);
               ("misc_hold_status", PyNone);
               ("misc_hold_detail", PyNone);
               ("is_terminal_hold", PyBool false);
               ("carrier_hold", PyInt 0);
               ("last_updated", PyStr (stamp env (tick (tick (tick w))))) ]);
           ("last_free_day", dict_of
             [ ("last_free_date", PyNone);
               ("line_last_free_date", PyNone);
               ("free_days", PyStr "0");
               ("first_free_date", PyNone);
               ("demurrage_due_flag", PyNone);
               ("demurrage_amount", PyFloat (S754_zero false));
               ("line_demurrage_amount", PyFloat (S754_zero false));
               ("is_on_demurrage_warning", PyBool false);
               ("last_updated",
                  PyStr (stamp env (tick (tick (tick (tick w)))))) ]) ]),
       tick (tick (tick (tick (tick w)))))
  ∧ (∀ intent, intent ∉ known_intents →
       _extract_data_by_intent (PyDict ∅) intent env w
       = (Returns (dict_of
            [ ("raw_data", PyDict ∅);
              ("last_updated", PyStr (stamp env w)) ]), tick w)).
Proof.
  split_and!.
  - intros intent. apply projection_total_on_dicts.
  - by run_projection_empty.
  - by run_projection_empty.
  - by run_projection_empty.
  - by run_projection_empty.
  - by run_projection_empty.
  - by run_projection_empty.
  - intros intent Hnot. unfold known_intents in Hnot.
    rewrite !not_elem_of_cons in Hnot. destruct_and!.
    unfold _extract_data_by_intent, get_method, bind, ret, utcnow_z, stamp.
    rewrite has_holds_empty.
    repeat match goal with
      | H : intent ≠ ?s |- _ =>
          rewrite (proj2 (String.eqb_neq intent s) H); clear H
      end.
    reflexivity.
Qed.

(** ** The composite view under intent [all] *)

Lemma delete_list_to_map_ext (k0 : string) (items1 items2 : list (string * value)) :
  (∀ k, k ≠ k0 → assoc k items1 = assoc k items2) →
  delete k0 (list_to_map items1 : gmap string value)
  = delete k0 (list_to_map items2).
Proof.
  intros Hext. apply map_eq. intros k. rewrite !lookup_delete.
  case_decide; [done|]. rewrite !lookup_list_to_map_assoc. by apply Hext.
Qed.

Ltac same_items_but k0 :=
  apply (delete_list_to_map_ext k0);
  let k := fresh "k" in
  let Hk := fresh "Hk" in
  intros k Hk; cbn [assoc];
  rewrite (proj2 (String.eqb_neq k0 k)) by congruence;
  reflexivity.

(** What holds of C4 on every record: the [all] view has exactly the five
    keys; its [status], [availability], [holds] and [last_free_day]
    sub-objects agree, apart from [last_updated], with the single-intent
    views; its [location] sub-object agrees with the [location] view apart
    from [last_updated] and [coordinates]. *)
Lemma all_view_matches_single_views (env : Env) (w : World)
    (data : gmap string value) :
  ∃ view w',
    _extract_data_by_intent (PyDict data) "all" env w = (Returns (PyDict view), w')
    ∧ dom view
      = list_to_set [ "status"; "location"; "availability"; "holds"; "last_free_day" ]
    ∧ (∀ intent,
         intent ∈ [ "status"; "availability"; "holds"; "last_free_day" ] →
         ∀ w1, ∃ sub single w1',
           view !! intent = Some (PyDict sub)
           ∧ _extract_data_by_intent (PyDict data) intent env w1
             = (Returns (PyDict single), w1')
           ∧ delete "last_updated" sub = delete "last_updated" single)
    ∧ (∀ w1, ∃ sub single w1',
         view !! "location" = Some (PyDict sub)
         ∧ _extract_data_by_intent (PyDict data) "location" env w1
           = (Returns (PyDict single), w1')
         ∧ delete "last_updated" sub
           = delete "coordinates" (delete "last_updated" single)).
Proof.
  run_projection. unfold dict_of.
  eexists _, _. split; [reflexivity|]. split_and!.
  - by rewrite dom_list_to_map_L.
  - intros intent Hin w1. rewrite !elem_of_cons, elem_of_nil in Hin.
    destruct Hin as [->|[->|[->|[->|[]]]]];
      cbn [String.eqb Ascii.eqb Bool.eqb];
      (eexists _, _, _; split_and!;
       [ rewrite lookup_list_to_map_assoc; reflexivity
       | reflexivity
       | same_items_but "last_updated" ]).
  - intros w1.
    destruct (truthy (py_and (dict_get data "Block") (dict_get data "Bay")));
      (eexists _, _, _; split_and!;
       [ rewrite lookup_list_to_map_assoc; reflexivity | reflexivity | ]).
    + rewrite (delete_delete _ "coordinates" "last_updated").
      rewrite (delete_insert_id _ "coordinates") by (rewrite lookup_list_to_map_assoc; reflexivity).
      same_items_but "last_updated".
    + rewrite (delete_delete _ "coordinates" "last_updated").
      rewrite (delete_id _ "coordinates") by (rewrite lookup_list_to_map_assoc; reflexivity).
      same_items_but "last_updated".
Qed.

Lemma differ_on_key (k k0 : string) (m1 m2 : gmap string value) :
  k ≠ k0 → m1 !! k ≠ m2 !! k → delete k0 m1 ≠ delete k0 m2.
Proof.
  intros Hne Hdiff Heq. apply Hdiff.
  apply (f_equal (λ m : gmap string value, m !! k)) in Heq.
  by rewrite !lookup_delete_ne in Heq.
Qed.

(** C4 at [{"Block": "A", "Bay": "12"}]: the [location] view carries the
    placeholder [coordinates], the [location] sub-object of the [all] view
    does not, so the two differ in more than [last_updated]. *)
Theorem all_location_lacks_coordinates :
  ∃ view sub single w1 w2,
    _extract_data_by_intent (PyDict record_block_bay) "all" env0 world0
    = (Returns (PyDict view), w1)
    ∧ view !! "location" = Some (PyDict sub)
    ∧ _extract_data_by_intent (PyDict record_block_bay) "location" env0 world0
      = (Returns (PyDict single), w2)
    ∧ single !! "coordinates" = Some coordinates
    ∧ sub !! "coordinates" = None
    ∧ delete "last_updated" sub ≠ delete "last_updated" single.
Proof.
  eexists _, _, _, _, _. split_and!.
  - vm_compute. reflexivity.
  - vm_compute. reflexivity.
  - vm_compute. reflexivity.
  - vm_compute. reflexivity.
  - vm_compute. reflexivity.
  - apply (differ_on_key "coordinates"); [done | by vm_compute].
Qed.

(** ** The fetch activity, case by case *)

Lemma extract_frame (container_data : value) (intent : string)
    (env : Env) (w : World) :
  ∃ r w',
    _extract_data_by_intent container_data intent env w = (r, w')
    ∧ requests w' = requests w ∧ attempts w' = attempts w ∧ timers w' = timers w
    ∧ (∀ e, r = Raises e → ∃ msg, e = AttributeError msg)
    ∧ (r = Raises (AttributeError
                     ("'" +:+ type_name container_data
                      +:+ "' object has no attribute 'get'"))
       ↔ ∀ m, container_data ≠ PyDict m).
Proof.
  unfold _extract_data_by_intent, get_method, bind, ret, raise, utcnow_z.
  destruct container_data;
    try (eexists _, _; split_and!; [reflexivity | done | done | done | | ];
         [intros e [= <-]; by eexists | split; [done | done]]).
  destruct (_has_holds env m) as [has_holds hold_types].
  repeat match goal with
    | |- context [String.eqb intent ?s] => destruct (String.eqb intent s)
    | |- context [truthy ?v] => destruct (truthy v)
    end;
    (eexists _, _; split_and!; [reflexivity | done | done | done | done |];
     split; [done | intros H; by destruct (H m)]).
Qed.

Lemma valid_id_passes_guard (container_id : string) :
  (4 ≤ String.length container_id)%nat →
  negb (truthy (PyStr container_id)) || Nat.ltb (String.length container_id) 4
  = false.
Proof.
  intros Hlen. apply orb_false_iff. split.
  - destruct container_id; [simpl in Hlen; lia | done].
  - by apply Nat.ltb_ge.
Qed.

(** One attempt of the activity on a well-formed container id, by the
    upstream's answer. *)
Lemma scrape_cases (container_id intent : string) (env : Env) (w : World) :
  (4 ≤ String.length container_id)%nat →
  scrape_pnct_activity container_id intent env w
  = let w1 := after_request env w container_id in
    match answer_to env w container_id with
    | TransportFailure msg => (Raises (NetworkError msg), w1)
    | HttpResponse status_code text json =>
        if is_2xx status_code then
          match json with
          | None => (Raises (JSONDecodeError text), w1)
          | Some body =>
              if truthy (record_of body) then
                match _extract_data_by_intent (record_of body) intent env w1 with
                | (Returns scraped_data, w2) =>
                    (Returns (activity_result env w2 container_id intent scraped_data),
                     tick w2)
                | (Raises e, w2) => (Raises e, w2)
                end
              else (Raises (NotFound_record container_id), w1)
          end
        else if status_code =? 404 then (Raises (NotFound_404 container_id), w1)
        else (Raises (UpstreamError status_code text), w1)
    end.
Proof.
  intros Hlen. unfold scrape_pnct_activity.
  rewrite (valid_id_passes_guard _ Hlen).
  unfold _fetch_container_from_api, time_millis, client_get.
  unfold try_except at 1. unfold bind at 1 2 3 4.
  unfold answer_to, after_request, request_url.
  cbn [tick clock_reads requests attempts timers].
  destruct (upstream env _ _) as [msg|status_code text json]; [reflexivity|].
  unfold raise_for_status, is_2xx.
  destruct ((200 <=? status_code) && (status_code <=? 299)); cbn [ret raise];
    [|by destruct (status_code =? 404)].
  destruct json as [body|]; [|reflexivity]. cbn [response_json ret].
  set (w1 := {| clock_reads := _ |}).
  assert (Hrun : ∀ record, (if negb (truthy record)
            then raise (ValueError ("Container " +:+ container_id +:+ " not found in PNCT system"))
            else bind (_extract_data_by_intent record intent)
                   (λ scraped_data, bind utcnow_z (λ scraped_at,
                      ret (dict_of [ ("container_id", PyStr container_id);
                                     ("intent", PyStr intent);
                                     ("data", scraped_data);
                                     ("scraped_at", PyStr scraped_at) ])))) env w1
          = if truthy record then
              match _extract_data_by_intent record intent env w1 with
              | (Returns scraped_data, w2) =>
                  (Returns (activity_result env w2 container_id intent scraped_data),
                   tick w2)
              | (Raises e, w2) => (Raises e, w2)
              end
            else (Raises (NotFound_record container_id), w1)).
  { intros record. destruct (truthy record); [|reflexivity]. cbn [negb].
    unfold bind. destruct (_extract_data_by_intent record intent env w1) as [[v|e] w2];
      reflexivity. }
  assert (Hhandle : ∀ record,
    (let (o, w') :=
       (if truthy record then
          match _extract_data_by_intent record intent env w1 with
          | (Returns scraped_data, w2) =>
              (Returns (activity_result env w2 container_id intent scraped_data),
               tick w2)
          | (Raises e, w2) => (Raises e, w2)
          end
        else (Raises (NotFound_record container_id), w1)) in
     match o with
     | Returns a => (Returns a, w')
     | Raises e =>
         match e with
         | HTTPStatusError status_code text =>
             if status_code =? 404
             then raise (ValueError ("Container " +:+ container_id +:+ " not found"))
             else raise (Exception
                           ("API error: " +:+ pretty status_code +:+ " - " +:+ text))
         | RequestError msg => raise (Exception ("Network error: " +:+ msg))
         | _ => raise e
         end env w'
     end)
    = if truthy record then
        match _extract_data_by_intent record intent env w1 with
        | (Returns scraped_data, w2) =>
            (Returns (activity_result env w2 container_id intent scraped_data),
             tick w2)
        | (Raises e, w2) => (Raises e, w2)
        end
      else (Raises (NotFound_record container_id), w1)).
  { intros record. destruct (truthy record); [|reflexivity].
    destruct (extract_frame record intent env w1) as (r & w2 & -> & _ & _ & _ & Hexn & _).
    destruct r as [v|e]; [reflexivity|].
    destruct (Hexn e eq_refl) as [msg ->]. reflexivity. }
  unfold bind at 1.
  destruct body as [| | | | |[|first rest]|m]; cbn [record_of ret];
    rewrite Hrun; apply Hhandle.
Qed.

Lemma short_id_raises (container_id intent : string) (env : Env) (w : World) :
  (String.length container_id < 4)%nat →
  scrape_pnct_activity container_id intent env w
  = (Raises (InvalidInput container_id), w).
Proof.
  intros Hlen. unfold scrape_pnct_activity.
  by rewrite (proj2 (Nat.ltb_lt _ _) Hlen), orb_true_r.
Qed.

(** C5. For a container id that is empty or shorter than 4 characters the
    activity fails with [InvalidInput], for every intent, and leaves the
    world as it was: no HTTP GET is issued (and no clock is read). *)
Theorem short_id_is_invalid_input (container_id intent : string)
    (env : Env) (w : World) :
  (String.length container_id < 4)%nat →
  scrape_pnct_activity container_id intent env w
  = (Raises (InvalidInput container_id), w)
  ∧ requests (snd (scrape_pnct_activity container_id intent env w)) = requests w.
Proof.
  intros Hlen. by rewrite short_id_raises.
Qed.

Lemma short_id_is_invalid_input_witness :
  (String.length "ABC" < 4)%nat
  ∧ scrape_pnct_activity "ABC" "status" env0 world0
    = (Raises (InvalidInput "ABC"), world0).
Proof.
  split; [simpl; lia|].
  apply (short_id_is_invalid_input "ABC" "status" env0 world0). simpl; lia.
Defined.

(** ** Not found *)

Lemma fetch_returns_record (container_id : string) (env : Env) (w : World)
    (status_code : Z) (text : string) (body : value) :
  answer_to env w container_id = HttpResponse status_code text (Some body) →
  is_2xx status_code = true →
  _fetch_container_from_api container_id env w
  = (Returns (record_of body), after_request env w container_id).
Proof.
  unfold answer_to, request_url, is_2xx. intros Hans H2xx.
  unfold _fetch_container_from_api, time_millis, client_get.
  unfold bind at 1 2. cbn [tick clock_reads requests attempts timers].
  rewrite Hans. unfold bind, raise_for_status. rewrite H2xx. cbn [ret response_json].
  by destruct body as [| | | | |[|first rest]|m].
Qed.

(** C8 (amended). On a well-formed container id the activity fails with
    [NotFound] exactly when the upstream answers HTTP 404, or answers with a
    2xx status and a JSON body whose record is falsy; the record is the first
    element of a non-empty array, the object itself for an object, and None
    for any other body shape.  So null, the empty array, the empty object,
    scalars and strings, but also arrays whose first element is falsy, are
    not found. *)
Theorem not_found_iff_404_or_falsy_record (container_id intent : string)
    (env : Env) (w : World) :
  (4 ≤ String.length container_id)%nat →
  (∃ r w',
     scrape_pnct_activity container_id intent env w = (r, w')
     ∧ ((∃ e, r = Raises e ∧ is_NotFound container_id e)
        ↔ (∃ text json, answer_to env w container_id = HttpResponse 404 text json)
          ∨ (∃ status_code text body,
               answer_to env w container_id
               = HttpResponse status_code text (Some body)
               ∧ is_2xx status_code = true
               ∧ truthy (record_of body) = false)))
  ∧ (∀ status_code text body,
       answer_to env w container_id = HttpResponse status_code text (Some body) →
       is_2xx status_code = true →
       _fetch_container_from_api container_id env w
       = (Returns (record_of body), after_request env w container_id))
  ∧ (∀ first rest, record_of (PyList (first :: rest)) = first)
  ∧ (∀ m, record_of (PyDict m) = PyDict m)
  ∧ (∀ body, other_shape body ∨ empty_or_null body →
       truthy (record_of body) = false).
Proof.
  intros Hlen. split_and!.
  - rewrite scrape_cases by done. cbn zeta.
    unfold is_NotFound, NotFound_record, NotFound_404, NetworkError, UpstreamError.
    destruct (answer_to env w container_id) as [msg|status_code text json].
    { eexists _, _. split; [reflexivity|]. split.
      - intros (e & [= <-] & [H|H]); discriminate.
      - intros [(? & ? & ?)|(? & ? & ? & ? & _)]; discriminate. }
    destruct (is_2xx status_code) eqn:H2xx.
    + assert (status_code ≠ 404) as Hne by (intros ->; done).
      destruct json as [body|].
      2:{ eexists _, _. split; [reflexivity|]. split.
          - intros (e & [= <-] & [H|H]); discriminate.
          - intros [(? & ? & [= ? _ _])|(? & ? & ? & [= _ _ ?] & _)]; done. }
      destruct (truthy (record_of body)) eqn:Htruthy.
      2:{ eexists _, _. split; [reflexivity|]. split.
          - intros _. right. by eexists _, _, _.
          - intros _. eexists. split; [reflexivity|]. by left. }
      destruct (extract_frame (record_of body) intent env
                  (after_request env w container_id))
        as (r & w2 & -> & _ & _ & _ & Hexn & _).
      destruct r as [view|e].
      * eexists _, _. split; [reflexivity|]. split.
        -- intros (e & [=] & _).
        -- intros [(? & ? & [= ? _ _])|(? & ? & ? & [= _ _ <-] & _ & ?)];
             [done | congruence].
      * destruct (Hexn e eq_refl) as [msg ->].
        eexists _, _. split; [reflexivity|]. split.
        -- intros (e & [= <-] & [H|H]); discriminate.
        -- intros [(? & ? & [= ? _ _])|(? & ? & ? & [= _ _ <-] & _ & ?)];
             [done | congruence].
    + destruct (Z.eqb_spec status_code 404) as [->|Hne].
      * eexists _, _. split; [reflexivity|]. split.
        -- intros _. left. by eexists _, _.
        -- intros _. eexists. split; [reflexivity|]. by right.
      * eexists _, _. split; [reflexivity|]. split.
        -- intros (e & [= <-] & [H|H]); discriminate.
        -- intros [(? & ? & [= ? _ _])|(? & ? & ? & [= <- _ _] & ? & _)];
             [done | congruence].
  - intros. by eapply fetch_returns_record.
  - done.
  - done.
  - intros body [Hshape|[->|[->|[->| ->]]]]; [|done..].
    by destruct body.
Qed.

Lemma not_found_iff_404_or_falsy_record_witness :
  (4 ≤ String.length "MSCU1234567")%nat
  ∧ ∃ r w',
      scrape_pnct_activity "MSCU1234567" "status" env0 world0 = (r, w')
      ∧ ((∃ e, r = Raises e ∧ is_NotFound "MSCU1234567" e)
         ↔ (∃ text json,
              answer_to env0 world0 "MSCU1234567" = HttpResponse 404 text json)
           ∨ (∃ status_code text body,
                answer_to env0 world0 "MSCU1234567"
                = HttpResponse status_code text (Some body)
                ∧ is_2xx status_code = true
                ∧ truthy (record_of body) = false)).
Proof.
  split; [simpl; lia|].
  apply (not_found_iff_404_or_falsy_record "MSCU1234567" "status" env0 world0).
  simpl; lia.
Defined.

(** C8, as stated, fails: a 200 answer whose body is the one-element array
    [[{}]] (or [[0]]) is neither a 404 nor an empty or null body nor a body of
    another shape, and yet the activity fails with [NotFound]. *)
Lemma not_found_outside_claimed_cases :
  (∃ w', scrape_pnct_activity "MSCU1234567" "status"
           (env_body "[{}]" (PyList [ PyDict ∅ ])) world0
         = (Raises (NotFound_record "MSCU1234567"), w'))
  ∧ ¬ claimed_not_found
        (answer_to (env_body "[{}]" (PyList [ PyDict ∅ ])) world0 "MSCU1234567")
  ∧ (∃ w', scrape_pnct_activity "MSCU1234567" "status"
             (env_body "[0]" (PyList [ PyInt 0 ])) world0
           = (Raises (NotFound_record "MSCU1234567"), w'))
  ∧ ¬ claimed_not_found
        (answer_to (env_body "[0]" (PyList [ PyInt 0 ])) world0 "MSCU1234567").
Proof.
  split_and!.
  - eexists. vm_compute. reflexivity.
  - intros [H|[H|(body & [= <-] & [[H|[H|[H|H]]]|H])]]; done.
  - eexists. vm_compute. reflexivity.
  - intros [H|[H|(body & [= <-] & [[H|[H|[H|H]]]|H])]]; done.
Qed.

(** ** The retry wrapper *)

Lemma scrape_frame (container_id intent : string) (env : Env) (w : World) :
  ∃ r w',
    scrape_pnct_activity container_id intent env w = (r, w')
    ∧ attempts w' = attempts w ∧ timers w' = timers w
    ∧ (requests w' = requests w ∨ ∃ url, requests w' = requests w ++ [url]).
Proof.
  destruct (Nat.lt_ge_cases (String.length container_id) 4) as [Hlt|Hge].
  - rewrite short_id_raises by done.
    eexists _, _. split_and!; [reflexivity | done | done | by left].
  - rewrite scrape_cases by done. cbn zeta.
    destruct (answer_to env w container_id) as [msg|status_code text json].
    { eexists _, _. split_and!; [reflexivity | done | done | right; by eexists]. }
    destruct (is_2xx status_code).
    2:{ destruct (status_code =? 404);
          (eexists _, _; split_and!; [reflexivity | done | done | right; by eexists]). }
    destruct json as [body|].
    2:{ eexists _, _. split_and!; [reflexivity | done | done | right; by eexists]. }
    destruct (truthy (record_of body)).
    2:{ eexists _, _. split_and!; [reflexivity | done | done | right; by eexists]. }
    destruct (extract_frame (record_of body) intent env
                (after_request env w container_id))
      as (r & w2 & -> & Hreq & Hatt & Htim & _).
    destruct r as [view|e];
      (eexists _, _; split_and!;
       [ reflexivity
       | cbn [tick attempts]; by rewrite Hatt
       | cbn [tick timers]; by rewrite Htim
       | right; eexists; cbn [tick requests]; by rewrite Hreq ]).
Qed.

Lemma retry_policy_of_workflow (fuel : nat) (container_id intent : string)
    (env : Env) (w : World) :
  PNCTScrapeWorkflow_run fuel container_id intent env w
  = execute_activity_from fuel pnct_retry_policy
      (scrape_pnct_activity container_id intent) 1 env w.
Proof. reflexivity. Qed.

Lemma may_retry_pnct (attempt : nat) (e : exn) :
  may_retry pnct_retry_policy attempt e = Nat.ltb attempt 3.
Proof.
  unfold may_retry. cbn [non_retryable_error_types maximum_attempts pnct_retry_policy].
  rewrite bool_decide_eq_false_2 by apply not_elem_of_nil. done.
Qed.

Lemma backoff_intervals_pnct :
  backoff_interval pnct_retry_policy <$> [1; 2; 3; 4; 5; 6]%nat
  = [1; 2; 4; 8; 10; 10]%Q.
Proof. reflexivity. Qed.

(** With fuel for three attempts the workflow is: attempt, wait 1s, attempt,
    wait 2s, attempt; the first attempt that returns ends it, whatever the
    earlier failures were, and the third failure is surfaced. *)
Lemma workflow_unfold (fuel : nat) (container_id intent : string)
    (env : Env) (w : World) :
  (3 ≤ fuel)%nat →
  PNCTScrapeWorkflow_run fuel container_id intent env w
  = match scrape_pnct_activity container_id intent env (start_attempt w) with
    | (Returns result, w1) => Some (Returns result, w1)
    | (Raises _, w1) =>
        match scrape_pnct_activity container_id intent env
                (start_attempt (wait 1 w1)) with
        | (Returns result, w2) => Some (Returns result, w2)
        | (Raises _, w2) =>
            match scrape_pnct_activity container_id intent env
                    (start_attempt (wait 2 w2)) with
            | (Returns result, w3) => Some (Returns result, w3)
            | (Raises e, w3) => Some (Raises (ActivityError e), w3)
            end
        end
    end.
Proof.
  intros Hfuel. rewrite retry_policy_of_workflow.
  destruct fuel as [|[|[|fuel]]]; [lia..|].
  cbn [execute_activity_from].
  destruct (scrape_pnct_activity _ _ env (start_attempt w)) as [[v1|e1] w1]; [done|].
  rewrite may_retry_pnct. cbn [Nat.ltb Nat.leb].
  change (backoff_interval pnct_retry_policy 1) with 1%Q.
  destruct (scrape_pnct_activity _ _ env (start_attempt (wait 1 w1))) as [[v2|e2] w2];
    [done|].
  rewrite may_retry_pnct. cbn [Nat.ltb Nat.leb].
  change (backoff_interval pnct_retry_policy 2) with 2%Q.
  destruct (scrape_pnct_activity _ _ env (start_attempt (wait 2 w2))) as [[v3|e3] w3];
    [done|].
  rewrite may_retry_pnct. done.
Qed.

Lemma scrape_status_error (container_id intent : string) (env : Env) (w : World)
    (status_code : Z) (text : string) (json : option value) :
  (4 ≤ String.length container_id)%nat →
  answer_to env w container_id = HttpResponse status_code text json →
  is_2xx status_code = false →
  scrape_pnct_activity container_id intent env w
  = (Raises (if status_code =? 404 then NotFound_404 container_id
             else UpstreamError status_code text),
     after_request env w container_id).
Proof.
  intros Hlen Hans H2xx. rewrite scrape_cases by done. cbn zeta.
  rewrite Hans, H2xx. by destruct (status_code =? 404).
Qed.

Ltac world_fields :=
  cbn [start_attempt wait after_request tick attempts timers requests clock_reads] in *.

(** The shape of every execution with fuel for three attempts. *)
Lemma workflow_outcome (fuel : nat) (container_id intent : string)
    (env : Env) (w : World) :
  (3 ≤ fuel)%nat →
  ∃ r w',
    PNCTScrapeWorkflow_run fuel container_id intent env w = Some (r, w')
    ∧ (attempts w < attempts w' ≤ attempts w + 3)%nat
    ∧ (length (requests w') + attempts w ≤ length (requests w) + attempts w')%nat
    ∧ (∀ e, r = Raises e →
         attempts w' = (attempts w + 3)%nat
         ∧ timers w' = timers w ++ [1%Q; 2%Q]
         ∧ ∃ cause, e = ActivityError cause).
Proof.
  intros Hfuel. rewrite workflow_unfold by done.
  destruct (scrape_frame container_id intent env (start_attempt w))
    as (r1 & w1 & -> & Ha1 & Ht1 & Hr1).
  assert (length (requests w1) ≤ S (length (requests w)))%nat as Hl1.
  { destruct Hr1 as [->|[url ->]]; world_fields; rewrite ?length_app; simpl; lia. }
  world_fields. destruct r1 as [v1|e1].
  { eexists _, _. split_and!; [reflexivity | lia | lia | lia | done]. }
  destruct (scrape_frame container_id intent env (start_attempt (wait 1 w1)))
    as (r2 & w2 & -> & Ha2 & Ht2 & Hr2).
  assert (length (requests w2) ≤ S (length (requests w1)))%nat as Hl2.
  { destruct Hr2 as [->|[url ->]]; world_fields; rewrite ?length_app; simpl; lia. }
  world_fields. destruct r2 as [v2|e2].
  { eexists _, _. split_and!; [reflexivity | lia | lia | lia | done]. }
  destruct (scrape_frame container_id intent env (start_attempt (wait 2 w2)))
    as (r3 & w3 & -> & Ha3 & Ht3 & Hr3).
  assert (length (requests w3) ≤ S (length (requests w2)))%nat as Hl3.
  { destruct Hr3 as [->|[url ->]]; world_fields; rewrite ?length_app; simpl; lia. }
  world_fields. destruct r3 as [v3|e3].
  { eexists _, _. split_and!; [reflexivity | lia | lia | lia | done]. }
  eexists _, _. split_and!; [reflexivity | lia | lia | lia |].
  intros e [= <-]. split_and!; [lia | | by eexists].
  rewrite Ht3, Ht2, Ht1. by rewrite <- !(assoc_L (++)).
Qed.

(** Three failing status codes in a row: three attempts, three requests, the
    third failure surfaced. *)
Lemma workflow_three_status_errors (fuel : nat) (container_id intent : string)
    (env : Env) (w : World) (status_code : Z) :
  (3 ≤ fuel)%nat →
  (4 ≤ String.length container_id)%nat →
  is_2xx status_code = false →
  (∀ k url, (k < 3)%nat →
     ∃ text json,
       upstream env (length (requests w) + k) url
       = HttpResponse status_code text json) →
  ∃ text w',
    PNCTScrapeWorkflow_run fuel container_id intent env w
    = Some (Raises (ActivityError
                      (if status_code =? 404 then NotFound_404 container_id
                       else UpstreamError status_code text)), w')
    ∧ attempts w' = (attempts w + 3)%nat
    ∧ length (requests w') = (length (requests w) + 3)%nat
    ∧ timers w' = timers w ++ [1%Q; 2%Q].
Proof.
  intros Hfuel Hlen H2xx Hup. rewrite workflow_unfold by done.
  destruct (Hup 0%nat (request_url env (start_attempt w) container_id))
    as (text1 & json1 & Hans1); [lia|].
  rewrite Nat.add_0_r in Hans1.
  rewrite (scrape_status_error _ _ _ _ status_code text1 json1) by done.
  set (w1 := after_request env (start_attempt w) container_id).
  destruct (Hup 1%nat (request_url env (start_attempt (wait 1 w1)) container_id))
    as (text2 & json2 & Hans2); [lia|].
  rewrite (scrape_status_error _ _ _ _ status_code text2 json2); [|done| |done].
  2:{ unfold answer_to. rewrite <- Hans2. f_equal. subst w1. world_fields.
      rewrite length_app. done. }
  set (w2 := after_request env (start_attempt (wait 1 w1)) container_id).
  destruct (Hup 2%nat (request_url env (start_attempt (wait 2 w2)) container_id))
    as (text3 & json3 & Hans3); [lia|].
  rewrite (scrape_status_error _ _ _ _ status_code text3 json3); [|done| |done].
  2:{ unfold answer_to. rewrite <- Hans3. f_equal. subst w2 w1. world_fields.
      rewrite !length_app. simpl. lia. }
  exists text3. eexists. split_and!; [reflexivity | | |]; subst w2 w1; world_fields.
  - lia.
  - rewrite !length_app. simpl. lia.
  - by rewrite <- !(assoc_L (++)).
Qed.

(** C7. With fuel for three attempts every execution ends, after at most
    three attempts of the activity and at most three upstream requests.  When
    the upstream answers the first three requests with 503, whatever it would
    answer to a fourth, the execution fails with the third [UpstreamError]
    after exactly three attempts and three requests. *)
Theorem at_most_three_attempts (fuel : nat) (container_id intent : string)
    (env : Env) (w : World) :
  (3 ≤ fuel)%nat →
  ∃ r w',
    PNCTScrapeWorkflow_run fuel container_id intent env w = Some (r, w')
    ∧ (attempts w' ≤ attempts w + 3)%nat
    ∧ (length (requests w') ≤ length (requests w) + 3)%nat
    ∧ ((4 ≤ String.length container_id)%nat →
       (∀ k url, (k < 3)%nat →
          ∃ text json,
            upstream env (length (requests w) + k) url
            = HttpResponse 503 text json) →
       (∃ text, r = Raises (ActivityError (UpstreamError 503 text)))
       ∧ attempts w' = (attempts w + 3)%nat
       ∧ length (requests w') = (length (requests w) + 3)%nat).
Proof.
  intros Hfuel.
  destruct (workflow_outcome fuel container_id intent env w Hfuel)
    as (r & w' & Hrun & Hatt & Hreq & _).
  exists r, w'. split_and!; [done | lia | lia |].
  intros Hlen Hup.
  destruct (workflow_three_status_errors fuel container_id intent env w 503
              Hfuel Hlen eq_refl Hup) as (text & w'' & Hrun' & Hatt' & Hreq' & _).
  rewrite Hrun in Hrun'. injection Hrun' as -> ->.
  split_and!; [by exists text | done | done].
Qed.

Lemma at_most_three_attempts_witness :
  (3 ≤ 3)%nat
  ∧ ∃ w',
      PNCTScrapeWorkflow_run 3 "MSCU1234567" "status" env_503_then_200 world0
      = Some (Raises (ActivityError (UpstreamError 503 "Service Unavailable")), w')
      ∧ attempts w' = 3%nat ∧ length (requests w') = 3%nat.
Proof.
  split; [lia|].
  destruct (at_most_three_attempts 3 "MSCU1234567" "status" env_503_then_200 world0)
    as (r & w' & Hrun & _ & _ & H503); [lia|].
  destruct H503 as ((text & ->) & Hatt & Hreq).
  - simpl. lia.
  - intros k url Hk. exists "Service Unavailable", None.
    destruct k as [|[|[|k]]]; [reflexivity.. | lia].
  - exists w'. split_and!; [|done|done].
    rewrite Hrun. vm_compute in Hrun. by injection Hrun as <- _.
Defined.

(** C3 (amended). The wrapper retries every failure of the activity,
    [InvalidInput] and [NotFound] included, under the policy: initial interval
    1s, multiplier 2, cap 10s, three attempts in all, no failure type exempt.
    A failure is surfaced only after three failed attempts, with waits of 1s
    and 2s between them; a container id shorter than 4 characters gives three
    attempts and no request; three answers with the same failing status,
    404 included, give three attempts. *)
Theorem every_failure_is_retried (fuel : nat) (container_id intent : string)
    (env : Env) (w : World) :
  (3 ≤ fuel)%nat →
  ∃ r w',
    PNCTScrapeWorkflow_run fuel container_id intent env w = Some (r, w')
    ∧ (∀ e, r = Raises e →
         attempts w' = (attempts w + 3)%nat
         ∧ timers w' = timers w ++ [1%Q; 2%Q]
         ∧ ∃ cause, e = ActivityError cause)
    ∧ ((String.length container_id < 4)%nat →
       r = Raises (ActivityError (InvalidInput container_id))
       ∧ attempts w' = (attempts w + 3)%nat
       ∧ requests w' = requests w)
    ∧ ((4 ≤ String.length container_id)%nat →
       ∀ status_code, is_2xx status_code = false →
       (∀ k url, (k < 3)%nat →
          ∃ text json,
            upstream env (length (requests w) + k) url
            = HttpResponse status_code text json) →
       (∃ text,
          r = Raises (ActivityError
                        (if status_code =? 404 then NotFound_404 container_id
                         else UpstreamError status_code text)))
       ∧ attempts w' = (attempts w + 3)%nat
       ∧ length (requests w') = (length (requests w) + 3)%nat)
    ∧ (∀ attempt e, may_retry pnct_retry_policy attempt e = Nat.ltb attempt 3)
    ∧ backoff_interval pnct_retry_policy <$> [1; 2; 3; 4; 5; 6]%nat
      = [1; 2; 4; 8; 10; 10]%Q.
Proof.
  intros Hfuel.
  destruct (workflow_outcome fuel container_id intent env w Hfuel)
    as (r & w' & Hrun & _ & _ & Hfail).
  exists r, w'. split_and!; [done | done | | | apply may_retry_pnct | reflexivity].
  - intros Hlen. rewrite workflow_unfold in Hrun by done.
    rewrite !short_id_raises in Hrun by done.
    cbv beta iota in Hrun. injection Hrun as <- <-.
    split_and!; [done | world_fields; lia | done].
  - intros Hlen status_code H2xx Hup.
    destruct (workflow_three_status_errors fuel container_id intent env w
                status_code Hfuel Hlen H2xx Hup)
      as (text & w'' & Hrun' & Hatt' & Hreq' & _).
    rewrite Hrun in Hrun'. injection Hrun' as -> ->.
    split_and!; [by exists text | done | done].
Qed.

Lemma every_failure_is_retried_witness :
  (3 ≤ 3)%nat
  ∧ ∃ w',
      PNCTScrapeWorkflow_run 3 "MSCU1234567" "status" env0 world0
      = Some (Raises (ActivityError (NotFound_404 "MSCU1234567")), w')
      ∧ attempts w' = 3%nat
      ∧ timers w' = [1%Q; 2%Q].
Proof.
  split; [lia|].
  destruct (every_failure_is_retried 3 "MSCU1234567" "status" env0 world0)
    as (r & w' & Hrun & Hfail & _ & H404 & _); [lia|].
  destruct (H404 ltac:(simpl; lia) 404 eq_refl) as ((text & ->) & Hatt & _).
  - intros k url _. by exists "", None.
  - exists w'. split_and!; [done | done |].
    by destruct (Hfail _ eq_refl) as (_ & -> & _).
Defined.

(** C3, as stated, fails: an [InvalidInput] failure and a [NotFound] failure
    are each surfaced only after three attempts of the activity, not one. *)
Lemma invalid_input_and_not_found_are_retried :
  PNCTScrapeWorkflow_run 3 "ABC" "status" env0 world0
  = Some (Raises (ActivityError (InvalidInput "ABC")),
          {| clock_reads := 0; requests := []; attempts := 3;
             timers := [1%Q; 2%Q] |})
  ∧ ∃ w',
      PNCTScrapeWorkflow_run 3 "MSCU1234567" "status" env0 world0
      = Some (Raises (ActivityError (NotFound_404 "MSCU1234567")), w')
      ∧ attempts w' = 3%nat ∧ attempts w' ≠ 1%nat
      ∧ length (requests w') = 3%nat.
Proof.
  split; [by vm_compute|].
  eexists. split_and!; [vm_compute; reflexivity | done | done | done].
Qed.

(** * Further properties of the projection engine *)

Lemma projection_returns_iff_dict_aux (container_data : value) (intent : string)
    (env : Env) (w : World) :
  (∀ m, container_data ≠ PyDict m) →
  _extract_data_by_intent container_data intent env w
  = (Raises (AttributeError ("'" +:+ type_name container_data
                             +:+ "' object has no attribute 'get'")), w).
Proof.
  intros Hnot. destruct container_data; try reflexivity. by destruct (Hnot m).
Qed.

(** X1. The projection returns exactly on dicts.  On any other value it
    raises [AttributeError] for the missing [get], whatever the intent, before
    reading the clock. *)
Theorem projection_returns_iff_dict (container_data : value) (intent : string)
    (env : Env) (w : World) :
  ((∃ view w', _extract_data_by_intent container_data intent env w
               = (Returns view, w'))
   ↔ ∃ m, container_data = PyDict m)
  ∧ ((∀ m, container_data ≠ PyDict m) →
     _extract_data_by_intent container_data intent env w
     = (Raises (AttributeError ("'" +:+ type_name container_data
                                +:+ "' object has no attribute 'get'")), w)).
Proof.
  split.
  - split.
    + intros (view & w' & Hrun).
      destruct container_data; try discriminate Hrun. by eexists.
    + intros [m ->]. apply projection_total_on_dicts.
  - apply projection_returns_iff_dict_aux.
Qed.

(** X2. The keys of a view depend on the intent alone, not on the record:
    each named intent has its fixed key set, the [location] view having
    [coordinates] in addition when it attaches them. *)
Theorem view_keys_by_intent (env : Env) (w : World) (data : gmap string value) :
  (∃ view w',
     _extract_data_by_intent (PyDict data) "status" env w = (Returns (PyDict view), w')
     ∧ dom view = list_to_set
         [ "status"; "container_state"; "location"; "available";
           "availability_display_status"; "last_updated" ])
  ∧ (∃ view w',
       _extract_data_by_intent (PyDict data) "location" env w
       = (Returns (PyDict view), w')
       ∧ dom view ∖ {[ "coordinates" ]} = list_to_set
           [ "location"; "yard_name"; "block"; "bay"; "position"; "state";
             "container_state"; "last_updated" ])
  ∧ (∃ view w',
       _extract_data_by_intent (PyDict data) "availability" env w
       = (Returns (PyDict view), w')
       ∧ dom view = list_to_set
           [ "available"; "availability_display_status"; "available_for_pickup";
             "order_of_accessibility"; "last_updated" ])
  ∧ (∃ view w',
       _extract_data_by_intent (PyDict data) "holds" env w = (Returns (PyDict view), w')
       ∧ dom view = list_to_set
           [ "has_holds"; "hold_types"; "carrier_release_status";
             "custom_release_status"; "usda_status"; "yard_release_status";
             "misc_hold_status"; "misc_hold_detail"; "is_terminal_hold";
             "carrier_hold"; "last_updated" ])
  ∧ (∃ view w',
       _extract_data_by_intent (PyDict data) "last_free_day" env w
       = (Returns (PyDict view), w')
       ∧ dom view = list_to_set
           [ "last_free_date"; "line_last_free_date"; "free_days";
             "first_free_date"; "demurrage_due_flag"; "demurrage_amount";
             "line_demurrage_amount"; "is_on_demurrage_warning"; "last_updated" ]).
Proof.
  split_and!; run_projection; unfold dict_of.
  - eexists _, _. split; [reflexivity|]. by rewrite dom_list_to_map_L.
  - destruct (truthy _); (eexists _, _; split; [reflexivity|]).
    + rewrite dom_insert_L, dom_list_to_map_L. cbn [fmap list_fmap fst].
      set_solver.
    + rewrite dom_list_to_map_L. cbn [fmap list_fmap fst]. set_solver.
  - eexists _, _. split; [reflexivity|]. by rewrite dom_list_to_map_L.
  - eexists _, _. split; [reflexivity|]. by rewrite dom_list_to_map_L.
  - eexists _, _. split; [reflexivity|]. by rewrite dom_list_to_map_L.
Qed.

Lemma intent_not_known (intent : string) :
  intent ∉ known_intents →
  String.eqb intent "status" = false ∧ String.eqb intent "location" = false
  ∧ String.eqb intent "availability" = false ∧ String.eqb intent "holds" = false
  ∧ String.eqb intent "last_free_day" = false ∧ String.eqb intent "all" = false.
Proof.
  unfold known_intents. rewrite !not_elem_of_cons. intros (? & ? & ? & ? & ? & ? & _).
  by rewrite !String.eqb_neq.
Qed.

(** X3. An intent that is none of the six named ones is not an error: the
    whole raw record is passed through under [raw_data], with a timestamp
    from one clock read. *)
Theorem unrecognized_intent_passes_record (intent : string) (env : Env) (w : World)
    (data : gmap string value) :
  intent ∉ known_intents →
  _extract_data_by_intent (PyDict data) intent env w
  = (Returns (dict_of [ ("raw_data", PyDict data);
                        ("last_updated", PyStr (stamp env w)) ]), tick w).
Proof.
  intros (H1 & H2 & H3 & H4 & H5 & H6)%intent_not_known.
  unfold _extract_data_by_intent, get_method, bind, ret, utcnow_z, stamp.
  destruct (_has_holds env data) as [has_holds hold_types].
  by rewrite H1, H2, H3, H4, H5, H6.
Qed.

Lemma unrecognized_intent_passes_record_witness :
  ("Status" ∉ known_intents)
  ∧ _extract_data_by_intent (PyDict record_block_bay) "Status" env0 world0
    = (Returns (dict_of [ ("raw_data", PyDict record_block_bay);
                          ("last_updated", PyStr (stamp env0 world0)) ]),
       tick world0).
Proof.
  assert ("Status" ∉ known_intents) as Hnot.
  { by apply (bool_decide_unpack _). }
  split; [done|].
  by apply (unrecognized_intent_passes_record "Status" env0 world0 record_block_bay).
Defined.

(** ** More on the hold assessment *)

Lemma truthy_dict_get_false (data : gmap string value) (k : string) :
  truthy (dict_get data k) = false ↔ ¬ present_truthy data k.
Proof.
  rewrite <- truthy_dict_get. by destruct (truthy (dict_get data k)).
Qed.

Lemma has_holds_iff_nonempty (env : Env) (data : gmap string value) :
  fst (_has_holds env data) = true ↔ snd (_has_holds env data) ≠ [].
Proof.
  unfold _has_holds. cbn [fst snd].
  destruct (append_if _ _ _); cbn; split; done.
Qed.

(** X4. The hold assessment reports no holds, and then an empty list,
    exactly when [CarrierReleaseStatus] is not "HOLD", [CustomReleaseStatus]
    and [UsdaStatus] are both present and equal to "RELEASED",
    [YardReleaseStatus] is falsy, absent or "RELEASED", and neither
    [MiscHoldStatus] nor [IsTerminalHold] has a truthy value. *)
Theorem no_holds_iff (env : Env) (data : gmap string value) :
  (fst (_has_holds env data) = false ↔ snd (_has_holds env data) = [])
  ∧ (fst (_has_holds env data) = false
     ↔ data !! "CarrierReleaseStatus" ≠ Some (PyStr "HOLD")
       ∧ data !! "CustomReleaseStatus" = Some (PyStr "RELEASED")
       ∧ data !! "UsdaStatus" = Some (PyStr "RELEASED")
       ∧ (¬ present_truthy data "YardReleaseStatus"
          ∨ data !! "YardReleaseStatus" = Some (PyStr "RELEASED"))
       ∧ ¬ present_truthy data "MiscHoldStatus"
       ∧ ¬ present_truthy data "IsTerminalHold").
Proof.
  split.
  - pose proof (has_holds_iff_nonempty env data) as Hne.
    destruct (fst (_has_holds env data)), (snd (_has_holds env data));
      intuition congruence.
  - rewrite <- !dict_get_is_str, <- !truthy_dict_get_false, <- !py_eq_str_true.
    rewrite has_holds_spec. unfold hold_conditions. cbn [fst existsb].
    destruct (py_eq_str (dict_get data "CarrierReleaseStatus") "HOLD"),
      (py_eq_str (dict_get data "CustomReleaseStatus") "RELEASED"),
      (py_eq_str (dict_get data "UsdaStatus") "RELEASED"),
      (truthy (dict_get data "YardReleaseStatus")),
      (py_eq_str (dict_get data "YardReleaseStatus") "RELEASED"),
      (truthy (dict_get data "MiscHoldStatus")),
      (truthy (dict_get data "IsTerminalHold")); cbn; intuition congruence.
Qed.

(** X5. [hold_types] never lists a label twice and has at most six entries;
    [has_holds] is true exactly when the list is not empty. *)
Theorem hold_types_nodup (env : Env) (data : gmap string value) :
  NoDup (snd (_has_holds env data))
  ∧ (length (snd (_has_holds env data)) ≤ 6)%nat
  ∧ (fst (_has_holds env data) = true ↔ snd (_has_holds env data) ≠ []).
Proof.
  split_and!; [| |apply has_holds_iff_nonempty].
  - rewrite has_holds_spec. unfold hold_conditions, triggered_labels.
    case_hold_conditions; cbn;
      repeat (apply NoDup_cons; split;
              [rewrite ?elem_of_cons, elem_of_nil; intuition discriminate|]);
      apply NoDup_nil_2.
  - rewrite has_holds_spec. unfold hold_conditions, triggered_labels.
    case_hold_conditions; cbn; lia.
Qed.

(** ** Last free day *)

Lemma py_or_dict_get (data : gmap string value) (k1 k2 : string) :
  (∀ v, data !! k1 = Some v → truthy v = true →
        py_or (dict_get data k1) (dict_get data k2) = v)
  ∧ (¬ present_truthy data k1 →
     py_or (dict_get data k1) (dict_get data k2) = dict_get data k2).
Proof.
  unfold py_or. split.
  - intros v Hv Ht. unfold dict_get at 1 2. rewrite Hv. cbn. by rewrite Ht.
  - intros Hnot%truthy_dict_get_false. by rewrite Hnot.
Qed.

(** X6. Under intent [last_free_day], [last_free_date] is the record's
    [LastFreeDate] when that is present and truthy, and otherwise whatever
    [LastFreeDt] holds (None when absent); in particular an empty or null
    [LastFreeDate] is never shown when [LastFreeDt] has a value.  The same
    holds of [line_last_free_date] with [LineLastFreeDate] and
    [LineLastFreeDt]. *)
Theorem last_free_date_fallback (env : Env) (w : World) (data : gmap string value) :
  ∃ view w',
    _extract_data_by_intent (PyDict data) "last_free_day" env w = (Returns view, w')
    ∧ (∀ v, data !! "LastFreeDate" = Some v → truthy v = true →
            field view "last_free_date" = Some v)
    ∧ (¬ present_truthy data "LastFreeDate" →
       field view "last_free_date" = Some (dict_get data "LastFreeDt"))
    ∧ (∀ v, data !! "LineLastFreeDate" = Some v → truthy v = true →
            field view "line_last_free_date" = Some v)
    ∧ (¬ present_truthy data "LineLastFreeDate" →
       field view "line_last_free_date" = Some (dict_get data "LineLastFreeDt")).
Proof.
  run_projection. eexists _, _. split; [reflexivity|].
  rewrite !field_dict_of. cbn [assoc String.eqb Ascii.eqb Bool.eqb].
  destruct (py_or_dict_get data "LastFreeDate" "LastFreeDt") as [H1 H2].
  destruct (py_or_dict_get data "LineLastFreeDate" "LineLastFreeDt") as [H3 H4].
  split_and!.
  - intros v Hv Ht. by rewrite (H1 v).
  - intros Hnot. by rewrite H2.
  - intros v Hv Ht. by rewrite (H3 v).
  - intros Hnot. by rewrite H4.
Qed.

(** ** What a projection does to the world *)

(** X7. Projecting a dict issues no HTTP request and leaves the engine's
    bookkeeping alone; it reads the clock once, or five times under intent
    [all], where the [last_updated] of the sub-views [status], [location],
    [availability], [holds], [last_free_day] come from these five successive
    reads in this order. *)
Theorem projection_reads_clock_only (env : Env) (w : World)
    (data : gmap string value) (intent : string) :
  (∃ view w',
     _extract_data_by_intent (PyDict data) intent env w = (Returns view, w')
     ∧ requests w' = requests w ∧ attempts w' = attempts w ∧ timers w' = timers w
     ∧ clock_reads w'
       = (clock_reads w + if String.eqb intent "all" then 5 else 1)%nat)
  ∧ (∃ view w',
       _extract_data_by_intent (PyDict data) "all" env w = (Returns view, w')
       ∧ ∀ k name,
           [ "status"; "location"; "availability"; "holds"; "last_free_day" ] !! k
           = Some name →
           ∃ sub, field view name = Some sub
                  ∧ field sub "last_updated"
                    = Some (PyStr (utcnow_isoformat env (clock_reads w + k) +:+ "Z"))).
Proof.
  split.
  - unfold _extract_data_by_intent, get_method, bind, ret, utcnow_z.
    destruct (_has_holds env data) as [has_holds hold_types].
    destruct (String.eqb intent "status") eqn:E1.
    { apply String.eqb_eq in E1 as ->.
      eexists _, _. split_and!; [reflexivity | done..| cbn; lia]. }
    destruct (String.eqb intent "location") eqn:E2.
    { apply String.eqb_eq in E2 as ->.
      destruct (truthy _);
        (eexists _, _; split_and!; [reflexivity | done..| cbn; lia]). }
    destruct (String.eqb intent "availability") eqn:E3.
    { apply String.eqb_eq in E3 as ->.
      eexists _, _. split_and!; [reflexivity | done..| cbn; lia]. }
    destruct (String.eqb intent "holds") eqn:E4.
    { apply String.eqb_eq in E4 as ->.
      eexists _, _. split_and!; [reflexivity | done..| cbn; lia]. }
    destruct (String.eqb intent "last_free_day") eqn:E5.
    { apply String.eqb_eq in E5 as ->.
      eexists _, _. split_and!; [reflexivity | done..| cbn; lia]. }
    destruct (String.eqb intent "all") eqn:E6;
      (eexists _, _; split_and!; [reflexivity | done..| cbn; lia]).
  - run_projection. eexists _, _. split; [reflexivity|].
    intros k name Hk.
    destruct k as [|[|[|[|[|k]]]]]; cbn in Hk; try discriminate Hk;
      injection Hk as <-;
      (eexists; split;
       [ rewrite field_dict_of; reflexivity
       | rewrite field_dict_of; cbn [assoc String.eqb Ascii.eqb Bool.eqb];
         repeat f_equal; cbn; lia ]).
Qed.

(** * Further properties of the fetch activity *)

Lemma truthy_nonempty_dict (m : gmap string value) :
  m ≠ ∅ → truthy (PyDict m) = true.
Proof.
  intros Hne%map_size_non_empty_iff. cbn. by destruct (size m).
Qed.

Lemma scrape_returns (container_id intent : string) (env : Env) (w : World)
    (status_code : Z) (text : string) (body : value) (m : gmap string value) :
  (4 ≤ String.length container_id)%nat →
  answer_to env w container_id = HttpResponse status_code text (Some body) →
  is_2xx status_code = true →
  record_of body = PyDict m →
  m ≠ ∅ →
  ∃ view w2,
    _extract_data_by_intent (PyDict m) intent env (after_request env w container_id)
    = (Returns view, w2)
    ∧ scrape_pnct_activity container_id intent env w
      = (Returns (activity_result env w2 container_id intent view), tick w2)
    ∧ requests w2 = requests w ++ [request_url env w container_id]
    ∧ attempts w2 = attempts w ∧ timers w2 = timers w.
Proof.
  intros Hlen Hans H2xx Hrec Hne.
  rewrite scrape_cases by done. cbn zeta. rewrite Hans, H2xx, Hrec.
  rewrite (truthy_nonempty_dict m Hne).
  destruct (projection_total_on_dicts env (after_request env w container_id)
              m intent) as (view & w2 & Hview).
  destruct (extract_frame (PyDict m) intent env (after_request env w container_id))
    as (r & w2' & Hrun & Hreq & Hatt & Htim & _).
  rewrite Hview in Hrun. injection Hrun as <- <-.
  exists view, w2. rewrite Hview. by split_and!.
Qed.

(** X8. When the upstream answers a well-formed container id with a 2xx
    status and a body whose record is a non-empty object, the activity
    returns an object with [container_id] and [intent] echoed, the projected
    view of that record under [data] and a timestamp under [scraped_at], having
    issued exactly one GET. *)
Theorem activity_returns_projection (container_id intent : string) (env : Env)
    (w : World) (status_code : Z) (text : string) (body : value)
    (m : gmap string value) :
  (4 ≤ String.length container_id)%nat →
  answer_to env w container_id = HttpResponse status_code text (Some body) →
  is_2xx status_code = true →
  record_of body = PyDict m →
  m ≠ ∅ →
  ∃ view w2 result w',
    _extract_data_by_intent (PyDict m) intent env (after_request env w container_id)
    = (Returns view, w2)
    ∧ scrape_pnct_activity container_id intent env w = (Returns result, w')
    ∧ field result "container_id" = Some (PyStr container_id)
    ∧ field result "intent" = Some (PyStr intent)
    ∧ field result "data" = Some view
    ∧ field result "scraped_at" = Some (PyStr (stamp env w2))
    ∧ (∀ k, is_Some (field result k)
            ↔ k ∈ [ "container_id"; "intent"; "data"; "scraped_at" ])
    ∧ length (requests w') = S (length (requests w)).
Proof.
  intros Hlen Hans H2xx Hrec Hne.
  destruct (scrape_returns container_id intent env w status_code text body m
              Hlen Hans H2xx Hrec Hne) as (view & w2 & Hview & Hrun & Hreq & _).
  exists view, w2. eexists _, _. split_and!; [done | exact Hrun | done..| |].
  - intros k. unfold activity_result. rewrite field_dict_of. cbn [assoc].
    rewrite !elem_of_cons, elem_of_nil.
    repeat match goal with
      | |- context [String.eqb ?s k] => destruct (String.eqb_spec s k)
      end; split; try (by eauto); try (intros [? [=]]); try tauto.
    intros [?|[?|[?|[?|[]]]]]; congruence.
  - cbn [tick requests]. rewrite Hreq, length_app. cbn. lia.
Qed.

Lemma activity_returns_projection_witness :
  ∃ result w',
    scrape_pnct_activity "MSCU1234567" "status" env_in_yard world0
    = (Returns result, w')
    ∧ field result "container_id" = Some (PyStr "MSCU1234567")
    ∧ length (requests w') = 1%nat.
Proof.
  destruct (activity_returns_projection "MSCU1234567" "status" env_in_yard world0
              200 "[record]" (PyList [ PyDict record_in_yard ]) record_in_yard)
    as (view & w2 & result & w' & _ & Hrun & Hid & _ & _ & _ & _ & Hreq).
  - simpl. lia.
  - reflexivity.
  - reflexivity.
  - reflexivity.
  - apply map_non_empty_singleton.
  - exists result, w'. by split_and!.
Defined.

(** X9. On a well-formed container id the activity fails with
    [UpstreamError] exactly when the upstream answers with a status that is
    neither 2xx nor 404, and the failure then carries that status code and
    the body text of the answer. *)
Theorem upstream_error_iff (container_id intent : string) (env : Env) (w : World) :
  (4 ≤ String.length container_id)%nat →
  ∃ r w',
    scrape_pnct_activity container_id intent env w = (r, w')
    ∧ ((∃ status_code text, r = Raises (UpstreamError status_code text))
       ↔ ∃ status_code text json,
           answer_to env w container_id = HttpResponse status_code text json
           ∧ is_2xx status_code = false ∧ status_code ≠ 404)
    ∧ (∀ status_code text json,
         answer_to env w container_id = HttpResponse status_code text json →
         is_2xx status_code = false → status_code ≠ 404 →
         r = Raises (Exception ("API error: " +:+ pretty status_code
                                +:+ " - " +:+ text))).
Proof.
  intros Hlen. rewrite scrape_cases by done. cbn zeta.
  unfold UpstreamError, NotFound_record, NotFound_404, NetworkError.
  destruct (answer_to env w container_id) as [msg|status_code text json].
  { eexists _, _. split_and!; [reflexivity | | done].
    split; [intros (? & ? & [=]) | intros (? & ? & ? & [=] & _)]. }
  destruct (is_2xx status_code) eqn:H2xx.
  - assert (∀ (r : outcome value), (∀ (c : Z) (t : string), r ≠ Raises (Exception
              ("API error: " +:+ pretty c +:+ " - " +:+ t))) →
            ((∃ (c : Z) (t : string), r = Raises (Exception ("API error: " +:+ pretty c
                                            +:+ " - " +:+ t)))
             ↔ ∃ c t j, HttpResponse status_code text json = HttpResponse c t j
                        ∧ is_2xx c = false ∧ c ≠ 404)
            ∧ (∀ c t j, HttpResponse status_code text json = HttpResponse c t j →
                 is_2xx c = false → c ≠ 404 →
                 r = Raises (Exception ("API error: " +:+ pretty c
                                        +:+ " - " +:+ t)))) as Hno.
    { intros r Hr. split.
      - split; [intros (c & t & ?); by destruct (Hr c t)|].
        intros (c & t & j & [= <- _ _] & ? & _). congruence.
      - intros c t j [= <- _ _] ?. congruence. }
    destruct json as [body|].
    2:{ eexists _, _. split; [reflexivity|]. by apply Hno. }
    destruct (truthy (record_of body)).
    2:{ eexists _, _. split; [reflexivity|]. by apply Hno. }
    destruct (extract_frame (record_of body) intent env
                (after_request env w container_id))
      as (r & w2 & -> & _ & _ & _ & Hexn & _).
    destruct r as [view|e].
    + eexists _, _. split; [reflexivity|]. by apply Hno.
    + destruct (Hexn e eq_refl) as [msg ->].
      eexists _, _. split; [reflexivity|]. by apply Hno.
  - destruct (Z.eqb_spec status_code 404) as [->|Hne].
    + eexists _, _. split_and!; [reflexivity | |].
      * split; [intros (? & ? & [=]) |].
        intros (c & t & j & [= <- _ _] & _ & ?). done.
      * intros c t j [= <- _ _] _ ?. done.
    + eexists _, _. split_and!; [reflexivity | |].
      * split; [intros _; by eexists _, _, _ | intros _; by eexists _, _].
      * by intros c t j [= <- <- _] _ _.
Qed.

Lemma upstream_error_iff_witness :
  (4 ≤ String.length "MSCU1234567")%nat
  ∧ ∃ w', scrape_pnct_activity "MSCU1234567" "status" env_502 world0
          = (Raises (Exception "API error: 502 - Bad Gateway"), w').
Proof.
  split; [simpl; lia|].
  destruct (upstream_error_iff "MSCU1234567" "status" env_502 world0)
    as (r & w' & Hrun & _ & Hmsg); [simpl; lia|].
  exists w'. rewrite Hrun. f_equal.
  by apply (Hmsg 502 "Bad Gateway" None).
Defined.

(** X10. On a well-formed container id the activity fails with
    [NetworkError] exactly when the GET fails at the transport level, and the
    failure then carries the transport error's message. *)
Theorem network_error_iff (container_id intent : string) (env : Env) (w : World) :
  (4 ≤ String.length container_id)%nat →
  ∃ r w',
    scrape_pnct_activity container_id intent env w = (r, w')
    ∧ ((∃ msg, r = Raises (NetworkError msg))
       ↔ ∃ msg, answer_to env w container_id = TransportFailure msg)
    ∧ (∀ msg, answer_to env w container_id = TransportFailure msg →
              r = Raises (Exception ("Network error: " +:+ msg))).
Proof.
  intros Hlen. rewrite scrape_cases by done. cbn zeta.
  unfold UpstreamError, NotFound_record, NotFound_404, NetworkError.
  destruct (answer_to env w container_id) as [msg|status_code text json].
  { eexists _, _. split_and!; [reflexivity | |].
    - split; intros _; by eexists.
    - by intros ? [= <-]. }
  assert (∀ (r : outcome value),
            (∀ msg, r ≠ Raises (Exception ("Network error: " +:+ msg))) →
            ((∃ msg, r = Raises (Exception ("Network error: " +:+ msg)))
             ↔ ∃ msg, HttpResponse status_code text json = TransportFailure msg)
            ∧ (∀ msg, HttpResponse status_code text json = TransportFailure msg →
                      r = Raises (Exception ("Network error: " +:+ msg)))) as Hno.
  { intros r Hr. split; [|done].
    split; [intros (msg & ?); by destruct (Hr msg) | by intros (? & [=])]. }
  destruct (is_2xx status_code).
  - destruct json as [body|].
    2:{ eexists _, _. split; [reflexivity|]. by apply Hno. }
    destruct (truthy (record_of body)).
    2:{ eexists _, _. split; [reflexivity|]. by apply Hno. }
    destruct (extract_frame (record_of body) intent env
                (after_request env w container_id))
      as (r & w2 & -> & _ & _ & _ & Hexn & _).
    destruct r as [view|e].
    + eexists _, _. split; [reflexivity|]. by apply Hno.
    + destruct (Hexn e eq_refl) as [msg ->].
      eexists _, _. split; [reflexivity|]. by apply Hno.
  - destruct (status_code =? 404);
      (eexists _, _; split; [reflexivity|]; by apply Hno).
Qed.

Lemma network_error_iff_witness :
  (4 ≤ String.length "MSCU1234567")%nat
  ∧ ∃ w', scrape_pnct_activity "MSCU1234567" "status" env_unreachable world0
          = (Raises (Exception "Network error: All connection attempts failed"), w').
Proof.
  split; [simpl; lia|].
  destruct (network_error_iff "MSCU1234567" "status" env_unreachable world0)
    as (r & w' & Hrun & _ & Hmsg); [simpl; lia|].
  exists w'. rewrite Hrun. f_equal.
  by apply (Hmsg "All connection attempts failed").
Defined.





(** * Further properties of the retry wrapper *)

Lemma answer_at (env : Env) (w0 w : World) (container_id : string) (j : nat)
    (answer : http_outcome) :
  length (requests w) = (length (requests w0) + j)%nat →
  (∀ url, upstream env (length (requests w0) + j) url = answer) →
  answer_to env w container_id = answer.
Proof. intros Hlen Hup. unfold answer_to. by rewrite Hlen. Qed.

Lemma failing_attempt (container_id intent : string) (env : Env) (w0 w : World)
    (j : nat) :
  (4 ≤ String.length container_id)%nat →
  length (requests w) = (length (requests w0) + j)%nat →
  (∀ url, ∃ status_code text json,
     upstream env (length (requests w0) + j) url
     = HttpResponse status_code text json
     ∧ is_2xx status_code = false) →
  ∃ e, scrape_pnct_activity container_id intent env w
       = (Raises e, after_request env w container_id).
Proof.
  intros Hlen Hreq Hup.
  destruct (Hup (request_url env w container_id))
    as (status_code & text & json & Hans & H2xx).
  rewrite <- Hreq in Hans.
  rewrite (scrape_status_error _ _ _ _ status_code text json Hlen Hans H2xx).
  by eexists.
Qed.

(** X13. The wrapper returns the result of the first attempt that succeeds,
    as the activity returned it, and stops there: when the upstream answers
    [k] requests (k < 3) with failing statuses and the next one with a 2xx
    body holding a non-empty record, the execution returns the activity's
    result after k + 1 attempts and requests, having waited 1s, then 2s,
    between attempts. *)
Theorem workflow_returns_first_success (fuel k : nat) (container_id intent : string)
    (env : Env) (w : World) (status_code : Z) (text : string) (body : value)
    (m : gmap string value) :
  (3 ≤ fuel)%nat →
  (4 ≤ String.length container_id)%nat →
  (k < 3)%nat →
  (∀ j, (j < k)%nat → ∀ url, ∃ status_code' text' json',
     upstream env (length (requests w) + j) url
     = HttpResponse status_code' text' json'
     ∧ is_2xx status_code' = false) →
  (∀ url, upstream env (length (requests w) + k) url
          = HttpResponse status_code text (Some body)) →
  is_2xx status_code = true →
  record_of body = PyDict m →
  m ≠ ∅ →
  ∃ view w1 w2 w',
    _extract_data_by_intent (PyDict m) intent env w1 = (Returns view, w2)
    ∧ PNCTScrapeWorkflow_run fuel container_id intent env w
      = Some (Returns (activity_result env w2 container_id intent view), w')
    ∧ attempts w' = (attempts w + k + 1)%nat
    ∧ length (requests w') = (length (requests w) + k + 1)%nat
    ∧ timers w' = timers w ++ take k [1%Q; 2%Q].
Proof.
  intros Hfuel Hlen Hk Hfail Hok H2xx Hrec Hne.
  rewrite workflow_unfold by done.
  assert (∀ w0, length (requests w0) = (length (requests w) + k)%nat →
            ∃ view w2,
              _extract_data_by_intent (PyDict m) intent env
                (after_request env w0 container_id) = (Returns view, w2)
              ∧ scrape_pnct_activity container_id intent env w0
                = (Returns (activity_result env w2 container_id intent view), tick w2)
              ∧ requests w2 = requests w0 ++ [request_url env w0 container_id]
              ∧ attempts w2 = attempts w0 ∧ timers w2 = timers w0) as Hsucc.
  { intros w0 Hw0.
    apply (scrape_returns _ _ _ _ status_code text body m); try done.
    by apply (answer_at env w w0 container_id k). }
  destruct k as [|[|[|k]]]; [| | |lia].
  - destruct (Hsucc (start_attempt w)) as (view & w2 & Hview & -> & Hreq & Hatt & Htim).
    { world_fields. lia. }
    exists view. eexists _, w2, _. split_and!; [done | reflexivity | ..];
      world_fields.
    + rewrite Hatt. world_fields. lia.
    + rewrite Hreq, length_app. world_fields. cbn. lia.
    + rewrite Htim. world_fields. by rewrite app_nil_r.
  - destruct (failing_attempt container_id intent env w (start_attempt w) 0)
      as [e1 ->]; [done | world_fields; lia | by apply Hfail; lia |].
    set (w1 := after_request env (start_attempt w) container_id).
    destruct (Hsucc (start_attempt (wait 1 w1)))
      as (view & w2 & Hview & -> & Hreq & Hatt & Htim).
    { subst w1. world_fields. rewrite length_app. cbn. lia. }
    exists view. eexists _, w2, _. split_and!; [done | reflexivity | ..];
      subst w1; world_fields.
    + rewrite Hatt. world_fields. lia.
    + rewrite Hreq, !length_app. world_fields. rewrite ?length_app. cbn. lia.
    + rewrite Htim. by world_fields.
  - destruct (failing_attempt container_id intent env w (start_attempt w) 0)
      as [e1 ->]; [done | world_fields; lia | by apply Hfail; lia |].
    set (w1 := after_request env (start_attempt w) container_id).
    destruct (failing_attempt container_id intent env w (start_attempt (wait 1 w1)) 1)
      as [e2 ->]; [done | | by apply Hfail; lia |].
    { subst w1. world_fields. rewrite length_app. cbn. lia. }
    set (w1' := after_request env (start_attempt (wait 1 w1)) container_id).
    destruct (Hsucc (start_attempt (wait 2 w1')))
      as (view & w2 & Hview & -> & Hreq & Hatt & Htim).
    { subst w1' w1. world_fields. rewrite !length_app. cbn. lia. }
    exists view. eexists _, w2, _. split_and!; [done | reflexivity | ..];
      subst w1' w1; world_fields.
    + rewrite Hatt. world_fields. lia.
    + rewrite Hreq, !length_app. world_fields. rewrite ?length_app. cbn. lia.
    + rewrite Htim. world_fields. by rewrite <- !(assoc_L (++)).
Qed.

Lemma workflow_returns_first_success_witness :
  ∃ result w',
    PNCTScrapeWorkflow_run 3 "MSCU1234567" "status" env_503_twice world0
    = Some (Returns result, w')
    ∧ attempts w' = 3%nat
    ∧ length (requests w') = 3%nat
    ∧ timers w' = [1%Q; 2%Q].
Proof.
  destruct (workflow_returns_first_success 3 2 "MSCU1234567" "status"
              env_503_twice world0 200 "[record]"
              (PyList [ PyDict record_in_yard ]) record_in_yard)
    as (view & w1 & w2 & w' & _ & Hrun & Hatt & Hreq & Htim).
  - lia.
  - simpl. lia.
  - lia.
  - intros j Hj url. exists 503, "Service Unavailable", None.
    destruct j as [|[|j]]; [by split | by split | lia].
  - reflexivity.
  - reflexivity.
  - reflexivity.
  - apply map_non_empty_singleton.
  - eexists _, w'. by split_and!.
Defined.

(** * The proxy tiers *)

(** ** Strings *)

Lemma append_cons (c : Ascii.ascii) (s t : string) :
  String c s +:+ t = String c (s +:+ t).
Proof. reflexivity. Qed.

Lemma append_nil (t : string) : "" +:+ t = t.
Proof. reflexivity. Qed.



Lemma hyphen_free_app (s t : string) :
  hyphen_free (s +:+ String hyphen t) = false.
Proof.
  induction s as [|c s IH]; [done|].
  rewrite append_cons. cbn [hyphen_free]. by rewrite IH, andb_false_r.
Qed.

Lemma hyphen_split_injective (c1 c2 i1 i2 : string) :
  hyphen_free i1 = true → hyphen_free i2 = true →
  c1 +:+ String hyphen i1 = c2 +:+ String hyphen i2 →
  c1 = c2 ∧ i1 = i2.
Proof.
  intros H1 H2. revert c2.
  induction c1 as [|a c1 IH]; intros [|b c2] Heq;
    rewrite ?append_cons, ?append_nil in Heq.
  - by injection Heq.
  - injection Heq as _ ->. by rewrite hyphen_free_app in H1.
  - injection Heq as _ <-. by rewrite hyphen_free_app in H2.
  - injection Heq as -> Heq. destruct (IH c2 Heq) as [-> ->]. done.
Qed.

Lemma valid_intents_hyphen_free (intent : string) :
  intent ∈ valid_intents → hyphen_free intent = true.
Proof.
  unfold valid_intents. rewrite !elem_of_cons, elem_of_nil.
  intros [->|[->|[->|[->|[->|[->|[]]]]]]]; reflexivity.
Qed.

(** ** Request validation *)

Lemma validate_intent_inl (v : string) :
  validate_intent v = inl v ↔ v ∈ valid_intents.
Proof.
  unfold validate_intent. case_bool_decide; split; done.
Qed.

Lemma request_model_some (container_id intent : string) :
  (1 ≤ String.length container_id)%nat → intent ∈ valid_intents →
  ScrapeRequest container_id intent = Some (container_id, intent)
  ∧ QueryContainerRequest container_id intent = Some (container_id, intent).
Proof.
  intros Hlen Hin%validate_intent_inl. unfold ScrapeRequest, QueryContainerRequest.
  by rewrite (proj2 (Nat.leb_le _ _) Hlen), Hin.
Qed.


(** X14. The request validator accepts exactly the six named intents and
    returns them unchanged, and these are exactly the intents for which the
    projection builds a view of its own: the view of a dict has a [raw_data]
    key if and only if the intent fails [validate_intent].  So the
    pass-through of the raw record cannot be reached through the validated
    API. *)
Theorem validated_intent_never_raw (env : Env) (w : World)
    (data : gmap string value) (intent : string) :
  (validate_intent intent = inl intent ↔ intent ∈ valid_intents)
  ∧ (intent ∉ valid_intents →
     validate_intent intent
     = inr "intent must be one of: status, location, availability, holds, last_free_day, all")
  ∧ ∃ view w',
      _extract_data_by_intent (PyDict data) intent env w = (Returns view, w')
      ∧ (field view "raw_data" = None ↔ validate_intent intent = inl intent)
      ∧ (field view "raw_data" = Some (PyDict data)
         ↔ validate_intent intent ≠ inl intent).
Proof.
  split_and!; [apply validate_intent_inl | |].
  { intros Hnot. unfold validate_intent. by rewrite bool_decide_eq_false_2. }
  destruct (decide (intent ∈ valid_intents)) as [Hin|Hnot].
  - pose proof (proj2 (validate_intent_inl intent) Hin) as Hv.
    unfold valid_intents in Hin. rewrite !elem_of_cons, elem_of_nil in Hin.
    destruct Hin as [->|[->|[->|[->|[->|[->|[]]]]]]]; run_projection;
      try destruct (truthy (py_and _ _));
      (eexists _, _; split; [reflexivity|]);
      cbn [field]; unfold dict_of; cbn [field];
      rewrite ?lookup_insert_ne by done;
      rewrite lookup_list_to_map_assoc; cbn [assoc String.eqb Ascii.eqb Bool.eqb];
      (split; split; done).
  - assert (validate_intent intent ≠ inl intent) as Hv.
    { by rewrite validate_intent_inl. }
    destruct (intent_not_known intent Hnot) as (H1 & H2 & H3 & H4 & H5 & H6).
    unfold _extract_data_by_intent, get_method, bind, ret, utcnow_z.
    destruct (_has_holds env data) as [has_holds hold_types].
    rewrite H1, H2, H3, H4, H5, H6.
    eexists _, _. split; [reflexivity|].
    rewrite field_dict_of. cbn [assoc String.eqb Ascii.eqb Bool.eqb].
    split; split; done.
Qed.

(** X15. The request models of both API tiers accept a container id of one
    to three characters (with a valid intent) that the activity always
    rejects: the workflow then fails with [InvalidInput] after three attempts
    without any upstream request. *)
Theorem short_ids_pass_validation (container_id intent : string) :
  (1 ≤ String.length container_id < 4)%nat →
  intent ∈ valid_intents →
  ScrapeRequest container_id intent = Some (container_id, intent)
  ∧ QueryContainerRequest container_id intent = Some (container_id, intent)
  ∧ ∀ fuel env w, (3 ≤ fuel)%nat →
      ∃ w',
        PNCTScrapeWorkflow_run fuel container_id intent env w
        = Some (Raises (ActivityError (InvalidInput container_id)), w')
        ∧ requests w' = requests w
        ∧ attempts w' = (attempts w + 3)%nat.
Proof.
  intros [Hge Hlt] Hin.
  destruct (request_model_some container_id intent Hge Hin) as [-> ->].
  split_and!; [done | done |].
  intros fuel env w Hfuel. rewrite workflow_unfold by done.
  rewrite !short_id_raises by done.
  eexists. split_and!; [reflexivity | done | world_fields; lia].
Qed.

Lemma short_ids_pass_validation_witness :
  ScrapeRequest "ABC" "status" = Some ("ABC", "status")
  ∧ ∃ w',
      PNCTScrapeWorkflow_run 3 "ABC" "status" env_in_yard world0
      = Some (Raises (ActivityError (InvalidInput "ABC")), w')
      ∧ requests w' = [].
Proof.
  destruct (short_ids_pass_validation "ABC" "status") as (Hreq & _ & Hrun).
  - simpl. lia.
  - by apply (bool_decide_unpack _).
  - split; [done|].
    destruct (Hrun 3%nat env_in_yard world0) as (w' & Hw' & Hrequests & _); [lia|].
    by exists w'.
Defined.

(** ** The scraper API endpoint *)




Lemma scrape_of_activity_result (getenv : string → option string)
    (temporal : string → string → string → temporal_run)
    (container_id intent : string) (env : Env) (w : World)
    (container_id' intent' : string) (view : value) :
  temporal (workflow_id container_id intent) container_id intent
  = RunReturns (activity_result env w container_id' intent' view) →
  scrape getenv temporal container_id intent
  = Return (dict_of
      [ ("container_id", PyStr container_id);
        ("intent", PyStr intent);
        ("data", view);
        ("workflow_id", PyStr (workflow_id container_id intent)) ]).
Proof.
  unfold scrape. intros ->.
  unfold activity_result, dict_of. cbv beta iota.
  by rewrite lookup_list_to_map_assoc.
Qed.

(** X17. The endpoint undoes the activity's wrapping: given the object the
    activity returns for a projected view, it answers with that view under
    [data], the request's container id and intent and the workflow id; the
    activity's [scraped_at] is not passed on.  A result that is not an object
    with a [data] key is passed whole. *)
Theorem scrape_unwraps_activity_result (getenv : string → option string)
    (temporal : string → string → string → temporal_run)
    (container_id intent : string) :
  (∀ env w container_id' intent' view,
     temporal (workflow_id container_id intent) container_id intent
     = RunReturns (activity_result env w container_id' intent' view) →
     scrape getenv temporal container_id intent
     = Return (dict_of
         [ ("container_id", PyStr container_id);
           ("intent", PyStr intent);
           ("data", view);
           ("workflow_id",
              PyStr ("pnct-scrape-" +:+ container_id +:+ "-" +:+ intent)) ]))
  ∧ (∀ result,
       temporal (workflow_id container_id intent) container_id intent
       = RunReturns result →
       field result "data" = None →
       scrape getenv temporal container_id intent
       = Return (dict_of
           [ ("container_id", PyStr container_id);
             ("intent", PyStr intent);
             ("data", result);
             ("workflow_id",
                PyStr ("pnct-scrape-" +:+ container_id +:+ "-" +:+ intent)) ])).
Proof.
  split.
  - intros env w container_id' intent' view Hrun.
    by rewrite (scrape_of_activity_result _ _ _ _ _ _ _ _ _ Hrun).
  - unfold scrape. intros result -> Hnone. destruct result; try done.
    cbn [field] in Hnone. by rewrite Hnone.
Qed.

(** X18. For validated intents the workflow id determines the request: two
    requests with the same workflow id have the same container id and the
    same intent, whatever characters the container ids contain. *)
Theorem workflow_id_injective (container_id1 container_id2 intent1 intent2 : string) :
  intent1 ∈ valid_intents → intent2 ∈ valid_intents →
  workflow_id container_id1 intent1 = workflow_id container_id2 intent2 →
  container_id1 = container_id2 ∧ intent1 = intent2.
Proof.
  intros H1%valid_intents_hyphen_free H2%valid_intents_hyphen_free Heq.
  unfold workflow_id in Heq.
  change ("pnct-scrape-" +:+ container_id1 +:+ "-" +:+ intent1)
    with ("pnct-scrape-" +:+ (container_id1 +:+ String hyphen intent1)) in Heq.
  change ("pnct-scrape-" +:+ container_id2 +:+ "-" +:+ intent2)
    with ("pnct-scrape-" +:+ (container_id2 +:+ String hyphen intent2)) in Heq.
  apply (hyphen_split_injective _ _ _ _ H1 H2).
  rewrite !append_cons, append_nil in Heq. by injection Heq.
Qed.

Lemma workflow_id_injective_witness :
  workflow_id "MSC-1234567" "all" = workflow_id "MSC-1234567" "all"
  ∧ "MSC-1234567" = "MSC-1234567" ∧ "all" = "all".
Proof.
  split; [reflexivity|].
  apply (workflow_id_injective "MSC-1234567" "MSC-1234567" "all" "all");
    [by apply (bool_decide_unpack _) | by apply (bool_decide_unpack _) | reflexivity].
Defined.

(** ** The tiers put together *)








(** ** The handlers on their own *)

(** X22. The MCP tool handler passes a body on only for status 200 with a
    body that decodes, and then unchanged; every other answer of the scraper
    API, other 2xx statuses included, and every failure of the POST becomes an
    [HTTPException] with status 404, 500, 503 or 504, the 404 only for a 404
    answer. *)
Theorem tool_returns_iff_200 (getenv : string → option string)
    (client_post : client) (container_id intent : string) :
  (∀ body,
     tool_query_container getenv client_post container_id intent = Return body
     ↔ ∃ r,
         client_post (get_scraper_api_url getenv +:+ "/scrape")
           (dict_of [ ("container_id", PyStr container_id);
                      ("intent", PyStr intent) ]) = inr r
         ∧ resp_status r = 200 ∧ resp_json r = inl body)
  ∧ (∀ status_code detail,
       tool_query_container getenv client_post container_id intent
       = HTTPException status_code detail →
       status_code ∈ [ 404; 500; 503; 504 ]
       ∧ (status_code = 404 →
          ∃ r,
            client_post (get_scraper_api_url getenv +:+ "/scrape")
              (dict_of [ ("container_id", PyStr container_id);
                         ("intent", PyStr intent) ]) = inr r
            ∧ resp_status r = 404)).
Proof.
  unfold tool_query_container. cbv zeta.
  destruct (client_post _ _) as [[msg|msg|msg|msg]|r]; try (split; [split; [done | by intros (? & [=] & _)]|]; intros status_code detail [= <- _]; (split; [set_solver | done])).
  destruct (Z.eqb_spec (resp_status r) 200) as [H200|H200].
  - destruct (resp_json r) as [result|msg] eqn:Hjson.
    + split.
      * intros body. split; [intros [= <-]; by exists r|].
        intros (r' & [= <-] & _ & Hbody). congruence.
      * done.
    + split.
      * intros body. split; [done|]. intros (r' & [= <-] & _ & Hbody). congruence.
      * intros status_code detail [= <- _]. split; [set_solver | done].
  - split.
    + intros body. split.
      * by repeat case_match.
      * intros (r' & [= <-] & ? & _). done.
    + intros status_code detail.
      destruct (Z.eqb_spec (resp_status r) 404) as [H404|H404].
      * intros [= <- _]. split; [set_solver | by exists r].
      * destruct (resp_status r =? 500); intros [= <- _];
          (split; [set_solver | done]).
Qed.


(** * Two more properties of the core *)

(** X24. When all three attempts fail, the failure the wrapper surfaces is
    the one of the third attempt; the earlier failures are dropped.  With two
    failing answers followed by a third, the outcome is the error of the
    third answer's status: [NotFound] for 404, [UpstreamError] with that
    status and text otherwise. *)
Theorem workflow_surfaces_last_failure (fuel : nat) (container_id intent : string)
    (env : Env) (w : World) (status_code : Z) (text : string) (json : option value) :
  (3 ≤ fuel)%nat →
  (4 ≤ String.length container_id)%nat →
  (∀ j, (j < 2)%nat → ∀ url, ∃ status_code' text' json',
     upstream env (length (requests w) + j) url
     = HttpResponse status_code' text' json'
     ∧ is_2xx status_code' = false) →
  (∀ url, upstream env (length (requests w) + 2) url
          = HttpResponse status_code text json) →
  is_2xx status_code = false →
  ∃ w',
    PNCTScrapeWorkflow_run fuel container_id intent env w
    = Some (Raises (ActivityError
                      (if status_code =? 404 then NotFound_404 container_id
                       else UpstreamError status_code text)), w')
    ∧ attempts w' = (attempts w + 3)%nat.
Proof.
  intros Hfuel Hlen Hfail Hlast H2xx. rewrite workflow_unfold by done.
  destruct (failing_attempt container_id intent env w (start_attempt w) 0)
    as [e1 ->]; [done | world_fields; lia | by apply Hfail; lia |].
  set (w1 := after_request env (start_attempt w) container_id).
  destruct (failing_attempt container_id intent env w (start_attempt (wait 1 w1)) 1)
    as [e2 ->]; [done | | by apply Hfail; lia |].
  { subst w1. world_fields. rewrite length_app. cbn. lia. }
  set (w2 := after_request env (start_attempt (wait 1 w1)) container_id).
  rewrite (scrape_status_error _ _ _ _ status_code text json); [|done| |done].
  - eexists. split; [reflexivity|]. subst w2 w1. world_fields. lia.
  - apply (answer_at env w _ container_id 2); [|done].
    subst w2 w1. world_fields. rewrite !length_app. cbn. lia.
Qed.

Lemma workflow_surfaces_last_failure_witness :
  ∃ w',
    PNCTScrapeWorkflow_run 3 "MSCU1234567" "status" env_503_502_404 world0
    = Some (Raises (ActivityError (NotFound_404 "MSCU1234567")), w')
    ∧ attempts w' = 3%nat.
Proof.
  destruct (workflow_surfaces_last_failure 3 "MSCU1234567" "status"
              env_503_502_404 world0 404 "Not Found" None) as (w' & Hrun & Hatt).
  - lia.
  - simpl. lia.
  - intros j Hj url. destruct j as [|[|j]]; [| |lia].
    + by exists 503, "Service Unavailable", None.
    + by exists 502, "Bad Gateway", None.
  - reflexivity.
  - reflexivity.
  - by exists w'.
Defined.

(** X25. The [status] and the [availability] views of a record agree on
    [available], which is true exactly when the record's [Available] equals 2,
    and [available_for_pickup] is never true when [available] is false. *)
Theorem available_consistent (env : Env) (w1 w2 : World) (data : gmap string value) :
  ∃ status_view availability_view w1' w2' available pickup,
    _extract_data_by_intent (PyDict data) "status" env w1
    = (Returns status_view, w1')
    ∧ _extract_data_by_intent (PyDict data) "availability" env w2
      = (Returns availability_view, w2')
    ∧ field status_view "available" = Some (PyBool available)
    ∧ field availability_view "available" = Some (PyBool available)
    ∧ field availability_view "available_for_pickup" = Some (PyBool pickup)
    ∧ (available = true
       ↔ ∃ v, data !! "Available" = Some v ∧ py_eq_int v 2 = true)
    ∧ (pickup = true → available = true).
Proof.
  run_projection.
  eexists _, _, _, _, _, _. split_and!; [reflexivity | reflexivity | ..].
  - by rewrite field_dict_of.
  - by rewrite field_dict_of.
  - by rewrite field_dict_of.
  - by apply dict_get_or_eq_int.
  - by intros [? _]%andb_true_iff.
Qed.
